(** * prepare_gbif_data.py: jaguar occurrences inside the Mesoamerican corridor

    A shallow embedding of the script [src/prepare_gbif_data.py] and the
    properties of its stages: cleaning of the occurrence table, century
    correction of two-digit years, point geometry, the spatial filter
    against the corridor polygon, the counts per year and the exported
    table.

    Conventions of the embedding.
    - Python exceptions are values of [PyError]; a computation that may
      raise returns [result A].
    - A pandas [DataFrame] is its ordered column names together with its
      rows; each row carries its index label and one cell per column name.
    - A float64 that is not NaN is a rational ([Qc]), every null of pandas
      (NaN, NaT, None) is the cell [NA].
    - Library calls (pandas, shapely) are modelled as their documentation
      describes them, with the arguments the script passes. *)

From stdpp Require Import gmap strings list fin_maps numbers sorting.
From Stdlib Require Import QArith Qcanon ZArith Lia Ascii.
From Stdlib Require String.

Open Scope Z_scope.

(** ** Exceptions *)

Inductive PyError :=
| KeyError (key : string)
| ValueError (msg : string)
| AttributeError (msg : string)
| TypeError (msg : string)
| NameError (name : string).

Inductive result (A : Type) :=
| Ok (a : A)
| Raise (e : PyError).
Arguments Ok {A} a.
Arguments Raise {A} e.

#[global] Instance result_ret : MRet result := λ A a, Ok a.
#[global] Instance result_bind : MBind result := λ A B f m,
  match m with Ok a => f a | Raise e => Raise e end.
#[global] Instance result_fmap : FMap result := λ A B f m,
  match m with Ok a => Ok (f a) | Raise e => Raise e end.

Definition is_Ok {A} (m : result A) : Prop := ∃ a, m = Ok a.
Definition is_Ok_b {A} (m : result A) : bool :=
  match m with Ok _ => true | Raise _ => false end.
Definition raises {A} (m : result A) : Prop := ∃ e, m = Raise e.

(** ** Calendar dates and [pandas.Timestamp] *)

Module Datetime.

Record Timestamp := mkTimestamp {
  year : Z; month : Z; day : Z;
  hour : Z; minute : Z; second : Z
}.

#[global] Instance Timestamp_eq_dec : EqDecision Timestamp.
Proof. solve_decision. Defined.

Definition is_leap (y : Z) : bool :=
  (y mod 4 =? 0) && (negb (y mod 100 =? 0) || (y mod 400 =? 0)).

Definition days_in_month (y m : Z) : Z :=
  if m =? 2 then (if is_leap y then 29 else 28)
  else if (m =? 4) || (m =? 6) || (m =? 9) || (m =? 11) then 30
  else 31.

Definition valid_date (y m d : Z) : bool :=
  (1 <=? y) && (y <=? 9999) && (1 <=? m) && (m <=? 12) &&
  (1 <=? d) && (d <=? days_in_month y m).

Definition valid_time (h mi s : Z) : bool :=
  (0 <=? h) && (h <=? 23) && (0 <=? mi) && (mi <=? 59) && (0 <=? s) && (s <=? 59).

Definition valid (t : Timestamp) : bool :=
  valid_date (year t) (month t) (day t) && valid_time (hour t) (minute t) (second t).

(** [Timestamp.replace(year=y)]: the other fields are kept; a day that does
    not exist in the new year (29 February) raises [ValueError]. *)
Definition replace_year (t : Timestamp) (y : Z) : result Timestamp :=
  if valid_date y (month t) (day t)
  then Ok (mkTimestamp y (month t) (day t) (hour t) (minute t) (second t))
  else Raise (ValueError "day is out of range for month").

(** *** Parsing with the format [%m/%d/%y]

    The directives are the regular expressions of [strptime]:
    [%m] is [1[0-2]|0[1-9]|[1-9]], [%d] is
    [3[01]|[12]\d|0[1-9]|[1-9]| [1-9]] and [%y] is [\d\d]. Each matcher
    lists the values of the alternatives that match a prefix of the input,
    in the order the regular expression tries them, with the rest of the
    input. *)

Definition is_digit (c : ascii) : bool :=
  let n := nat_of_ascii c in (48 <=? n)%nat && (n <=? 57)%nat.

Definition digit_val (c : ascii) : Z := Z.of_nat (nat_of_ascii c) - 48.

Definition digit_in (lo hi : Z) (c : ascii) : bool :=
  is_digit c && (lo <=? digit_val c) && (digit_val c <=? hi).

Definition is_char (c d : ascii) : bool := bool_decide (c = d).

Definition re_m (s : list ascii) : list (Z * list ascii) :=
  match s with
  | c1 :: r1 =>
      match r1 with
      | c2 :: r2 =>
          (if is_char c1 "1" && digit_in 0 2 c2 then [(10 + digit_val c2, r2)] else []) ++
          (if is_char c1 "0" && digit_in 1 9 c2 then [(digit_val c2, r2)] else [])
      | [] => []
      end ++
      (if digit_in 1 9 c1 then [(digit_val c1, r1)] else [])
  | [] => []
  end.

Definition re_d (s : list ascii) : list (Z * list ascii) :=
  match s with
  | c1 :: r1 =>
      match r1 with
      | c2 :: r2 =>
          (if is_char c1 "3" && digit_in 0 1 c2 then [(30 + digit_val c2, r2)] else []) ++
          (if digit_in 1 2 c1 && is_digit c2 then [(10 * digit_val c1 + digit_val c2, r2)] else []) ++
          (if is_char c1 "0" && digit_in 1 9 c2 then [(digit_val c2, r2)] else [])
      | [] => []
      end ++
      (if digit_in 1 9 c1 then [(digit_val c1, r1)] else []) ++
      match r1 with
      | c2 :: r2 => if is_char c1 " " && digit_in 1 9 c2 then [(digit_val c2, r2)] else []
      | [] => []
      end
  | [] => []
  end.

Definition re_y (s : list ascii) : list (Z * list ascii) :=
  match s with
  | c1 :: c2 :: r => if is_digit c1 && is_digit c2 then [(10 * digit_val c1 + digit_val c2, r)] else []
  | _ => []
  end.

Definition re_lit (c : ascii) (s : list ascii) : list (list ascii) :=
  match s with
  | c' :: r => if is_char c' c then [r] else []
  | [] => []
  end.

(** All the ways the compiled format matches a prefix of [s], first match
    first: month, day, two-digit year and the unmatched rest. *)
Definition format_regex_mdy (s : list ascii) : list (Z * Z * Z * list ascii) :=
  '(m, r1) ← re_m s;
  r2 ← re_lit "/" r1;
  '(d, r3) ← re_d r2;
  r4 ← re_lit "/" r3;
  '(y, r5) ← re_y r4;
  [(m, d, y, r5)].

(** The century of a two-digit year: 00..68 is 20xx, 69..99 is 19xx. *)
Definition century (yy : Z) : Z := if yy <=? 68 then yy + 2000 else yy + 1900.

(** One string under [format="%m/%d/%y"], exact match. *)
Definition strptime_mdy (s : string) : result Timestamp :=
  match format_regex_mdy (String.list_ascii_of_string s) with
  | [] => Raise (ValueError "time data doesn't match format")
  | (m, d, yy, rest) :: _ =>
      match rest with
      | _ :: _ => Raise (ValueError "unconverted data remains")
      | [] =>
          let y := century yy in
          if valid_date y m d then Ok (mkTimestamp y m d 0 0 0)
          else Raise (ValueError "day is out of range for month")
      end
  end.

(** *** Formatting with [%Y-%m-%dT%H:%M:%S] *)

Definition digit_char (d : Z) : ascii := ascii_of_nat (Z.to_nat (48 + d mod 10)).

(** The last [w] decimal digits of [n], zero padded. *)
Fixpoint zfill (w : nat) (n : Z) : string :=
  match w with
  | O => EmptyString
  | S w' => (zfill w' (n / 10) +:+ String (digit_char n) EmptyString)%string
  end.

Definition strftime_iso (t : Timestamp) : string :=
  (zfill 4 (year t) +:+ "-" +:+ zfill 2 (month t) +:+ "-" +:+ zfill 2 (day t) +:+ "T" +:+
   zfill 2 (hour t) +:+ ":" +:+ zfill 2 (minute t) +:+ ":" +:+ zfill 2 (second t))%string.

End Datetime.

Import Datetime.

(** ** Planar geometry (shapely) *)

Module Geometry.

(** A coordinate pair [(x, y)]. *)
Definition Coord : Type := Qc * Qc.

(** [Point(xy)]: a point with numeric coordinates, or the point shapely
    builds from a NaN coordinate, which lies within no polygon. *)
Inductive Point :=
| PointXY (x y : Qc)
| PointNaN.

#[global] Instance Point_eq_dec : EqDecision Point.
Proof. solve_decision. Defined.

(** A polygon without holes: its exterior ring. *)
Record Polygon := mkPolygon { exterior : list Coord }.

(** [Polygon(coords)] closes the ring when the last pair differs from the
    first one. A ring of fewer than four pairs is refused. *)
Definition close_ring (coords : list Coord) : list Coord :=
  match coords, last coords with
  | c0 :: _, Some cn => if decide (c0 = cn) then coords else coords ++ [c0]
  | _, _ => coords
  end.

Definition Polygon_of (coords : list Coord) : result Polygon :=
  match coords with
  | [] => Ok (mkPolygon [])
  | _ =>
      let ring := close_ring coords in
      if (length ring <? 4)%nat
      then Raise (ValueError "A linearring requires at least 4 coordinates.")
      else Ok (mkPolygon ring)
  end.

Inductive Location := INTERIOR | BOUNDARY | EXTERIOR.

#[global] Instance Location_eq_dec : EqDecision Location.
Proof. solve_decision. Defined.

(** Sign of the cross product [(p2 - p1) x (q - p1)]: positive when [q] is
    to the left of the directed line [p1 -> p2]. *)
Definition orientationIndex (p1 p2 q : Coord) : comparison :=
  ((p2.1 - p1.1) * (q.2 - p1.2) ?= (p2.2 - p1.2) * (q.1 - p1.1))%Qc.

(** The state of the ray-crossing counter: whether the point was found on a
    segment, and the number of crossings of the ray towards positive x. *)
Record RayCrossingCounter := mkRCC { isPointOnSegment : bool; crossingCount : nat }.

Definition countSegment (point p1 p2 : Coord) (rcc : RayCrossingCounter) : RayCrossingCounter :=
  let on_segment := mkRCC true (crossingCount rcc) in
  if bool_decide (p1.1 < point.1)%Qc && bool_decide (p2.1 < point.1)%Qc then rcc
  else if bool_decide (point.1 = p2.1) && bool_decide (point.2 = p2.2) then on_segment
  else if bool_decide (p1.2 = point.2) && bool_decide (p2.2 = point.2) then
    let minx := if bool_decide (p2.1 < p1.1)%Qc then p2.1 else p1.1 in
    let maxx := if bool_decide (p2.1 < p1.1)%Qc then p1.1 else p2.1 in
    if bool_decide (minx ≤ point.1)%Qc && bool_decide (point.1 ≤ maxx)%Qc
    then on_segment else rcc
  else if (bool_decide (point.2 < p1.2)%Qc && bool_decide (p2.2 ≤ point.2)%Qc) ||
          (bool_decide (point.2 < p2.2)%Qc && bool_decide (p1.2 ≤ point.2)%Qc) then
    match orientationIndex p1 p2 point with
    | Eq => on_segment
    | sign =>
        let upward_left := if bool_decide (p2.2 < p1.2)%Qc then CompOpp sign else sign in
        match upward_left with
        | Gt => mkRCC (isPointOnSegment rcc) (S (crossingCount rcc))
        | _ => rcc
        end
    end
  else rcc.

Definition getLocation (rcc : RayCrossingCounter) : Location :=
  if isPointOnSegment rcc then BOUNDARY
  else if Nat.odd (crossingCount rcc) then INTERIOR
  else EXTERIOR.

(** The segments of the ring are counted in order; the walk stops at the
    first segment that holds the point. *)
Fixpoint countRing (point : Coord) (ring : list Coord) (rcc : RayCrossingCounter) : RayCrossingCounter :=
  match ring with
  | p1 :: ((p2 :: _) as rest) =>
      let rcc' := countSegment point p1 p2 rcc in
      if isPointOnSegment rcc' then rcc' else countRing point rest rcc'
  | _ => rcc
  end.

Definition locatePointInRing (point : Coord) (ring : list Coord) : Location :=
  getLocation (countRing point ring (mkRCC false 0)).

Definition locate (g : Point) (poly : Polygon) : Location :=
  match g with
  | PointXY x y => locatePointInRing (x, y) (exterior poly)
  | PointNaN => EXTERIOR
  end.

(** [g.within(poly)]: the point lies in the interior of the polygon; a
    point of the boundary is not within. *)
Definition within (g : Point) (poly : Polygon) : bool :=
  match g with
  | PointXY x y => bool_decide (locatePointInRing (x, y) (exterior poly) = INTERIOR)
  | PointNaN => false
  end.

End Geometry.

Import Geometry.

(** ** Tables (pandas) *)

Module Frame.

(** The value of one cell. [Int] and [Float] are the numbers; the integer
    year of a date is an [Int] whatever the width pandas stores it in. *)
Inductive cell :=
| NA
| Float (q : Qc)
| Int (z : Z)
| Str (s : string)
| Datetime (t : Timestamp)
| Geom (p : Point).

#[global] Instance cell_eq_dec : EqDecision cell.
Proof. solve_decision. Defined.

Definition isna (c : cell) : bool := match c with NA => true | _ => false end.
Definition notna (c : cell) : bool := negb (isna c).

(** A row: its index label and its cells by column name. *)
Definition Row : Type := Z * gmap string cell.

Definition label (r : Row) : Z := r.1.
Definition row_get (c : string) (r : Row) : cell := default NA (r.2 !! c).

(** A row with one cell set, with only the named cells, without them. *)
Definition set_cell (c : string) (v : cell) (r : Row) : Row := (r.1, <[c := v]> r.2).
Definition keep_cells (names : list string) (r : Row) : Row :=
  (r.1, filter (λ kv : string * cell, kv.1 ∈ names) r.2).
Definition drop_cells (names : list string) (r : Row) : Row :=
  (r.1, filter (λ kv : string * cell, kv.1 ∉ names) r.2).

Record DataFrame := mkDataFrame {
  columns : list string;
  rows : list Row
}.

(** A column taken out of a frame, in row order. *)
Abbreviation Series := (list cell).

Definition index (df : DataFrame) : list Z := label <$> rows df.

(** The first name of [names] that is not a column of the frame. *)
Definition missing_column (names : list string) (df : DataFrame) : option string :=
  head (filter (λ c, c ∉ columns df) names).

(** [df[c]] *)
Definition getitem (c : string) (df : DataFrame) : result Series :=
  if decide (c ∈ columns df) then Ok (row_get c <$> rows df)
  else Raise (KeyError c).

(** [df[c] = values]: an existing column is overwritten in place, a new
    one is appended. *)
Definition setitem (c : string) (values : list cell) (df : DataFrame) : result DataFrame :=
  if decide (length values = length (rows df)) then
    Ok (mkDataFrame
          (if decide (c ∈ columns df) then columns df else columns df ++ [c])
          (zip_with (λ r v, set_cell c v r) (rows df) values))
  else Raise (ValueError "Length of values does not match length of index").

(** No cell of the row is null in the named columns. *)
Definition all_notna (subset : list string) (r : Row) : Prop :=
  forallb (λ c, notna (row_get c r)) subset = true.

#[global] Instance all_notna_dec subset r : Decision (all_notna subset r).
Proof. unfold all_notna. apply _. Defined.

(** [df.dropna(subset=names)]: the rows with a null in one of the named
    columns are removed; labels and order of the others are kept. *)
Definition dropna (subset : list string) (df : DataFrame) : result DataFrame :=
  match missing_column subset df with
  | Some c => Raise (KeyError c)
  | None => Ok (mkDataFrame (columns df) (filter (all_notna subset) (rows df)))
  end.

(** One pair [old: new] of a renaming, on the cells of a row. A name that
    the row does not have is ignored. The frames of this model hold one
    cell per column name: the renaming is meant for frames without a
    column [new]. *)
Definition rename_key (old new : string) (m : gmap string cell) : gmap string cell :=
  match m !! old with
  | Some v => <[new := v]> (delete old m)
  | None => m
  end.

Definition rename_cells (mapper : list (string * string)) (r : Row) : Row :=
  (r.1, foldl (λ m p, rename_key p.1 p.2 m) r.2 mapper).

Definition rename_name (old new : string) (c : string) : string :=
  if decide (c = old) then new else c.

(** [df.rename(columns=mapper)]: the pairs of the script have distinct
    sources and targets, so they are applied one after the other. *)
Definition rename (mapper : list (string * string)) (df : DataFrame) : DataFrame :=
  mkDataFrame
    (foldl (λ cs p, rename_name p.1 p.2 <$> cs) (columns df) mapper)
    (rename_cells mapper <$> rows df).

(** [df[names]]: the named columns, in the order of [names]. *)
Definition select (names : list string) (df : DataFrame) : result DataFrame :=
  match missing_column names df with
  | Some c => Raise (KeyError c)
  | None =>
      Ok (mkDataFrame names (keep_cells names <$> rows df))
  end.

(** [df.drop(columns=names)] *)
Definition drop (names : list string) (df : DataFrame) : result DataFrame :=
  match missing_column names df with
  | Some c => Raise (KeyError c)
  | None =>
      Ok (mkDataFrame (filter (λ c, c ∉ names) (columns df))
            (drop_cells names <$> rows df))
  end.

(** [df[mask]] with a boolean mask aligned with the rows. *)
Definition getitem_mask (mask : list bool) (df : DataFrame) : result DataFrame :=
  if decide (length mask = length (rows df)) then
    Ok (mkDataFrame (columns df)
          (fst <$> filter (λ rb : Row * bool, rb.2 = true) (zip (rows df) mask)))
  else Raise (ValueError "Item wrong length").

(** *** Conversions of a column *)

(** [errors=] of [pd.to_datetime] and [pd.to_numeric]. *)
Inductive errors_mode := errors_raise | errors_coerce.

(** One value under [pd.to_datetime(..., format="%m/%d/%y", errors=mode)].
    A null stays null; a string is parsed; a value that is no string has no
    text in this format. *)
Definition to_datetime_value (mode : errors_mode) (v : cell) : result cell :=
  match v with
  | NA => Ok NA
  | Datetime t => Ok (Datetime t)
  | Str s =>
      match strptime_mdy s, mode with
      | Ok t, _ => Ok (Datetime t)
      | Raise e, errors_raise => Raise e
      | Raise e, errors_coerce => Ok NA
      end
  | _ =>
      match mode with
      | errors_raise => Raise (ValueError "time data doesn't match format")
      | errors_coerce => Ok NA
      end
  end.

(** [pd.to_datetime(s, format="%m/%d/%y", errors=mode)]; the default of
    [errors] is ["raise"]. *)
Definition to_datetime (s : Series) (mode : errors_mode) : result Series :=
  mapM (to_datetime_value mode) s.

(** [s.apply(f)] *)
Definition apply (f : cell → result cell) (s : Series) : result Series :=
  mapM f s.

(** [s.dt.year], [s.dt.month], [s.dt.day]: the field of each date, null
    for a null date. *)
Definition dt_value (field : Timestamp → Z) (v : cell) : result cell :=
  match v with
  | Datetime t => Ok (Int (field t))
  | NA => Ok NA
  | _ => Raise (AttributeError "Can only use .dt accessor with datetimelike values")
  end.

Definition dt_field (field : Timestamp → Z) (s : Series) : result Series :=
  mapM (dt_value field) s.

(** [s.dt.strftime("%Y-%m-%dT%H:%M:%S")] *)
Definition strftime_value (v : cell) : result cell :=
  match v with
  | Datetime t => Ok (Str (strftime_iso t))
  | NA => Ok NA
  | _ => Raise (AttributeError "Can only use .dt accessor with datetimelike values")
  end.

Definition dt_strftime_iso (s : Series) : result Series :=
  mapM strftime_value s.

(** The text of an unsigned decimal integer. *)
Fixpoint digits_value (acc : Z) (s : list ascii) : option Z :=
  match s with
  | [] => Some acc
  | c :: r => if is_digit c then digits_value (10 * acc + digit_val c) r else None
  end.

(** [pd.to_numeric(s, errors="coerce")]: numbers and nulls are kept, what
    is no number becomes null. The script passes the years of [s.dt.year],
    which are numbers or nulls; of the strings only the plain integers are
    read here. *)
Definition numeric_value (v : cell) : cell :=
  match v with
  | Int z => Int z
  | Float q => Float q
  | Str t => match String.list_ascii_of_string t with
             | [] => NA
             | cs => from_option Int NA (digits_value 0 cs)
             end
  | _ => NA
  end.

Definition to_numeric_coerce (s : Series) : Series := numeric_value <$> s.

End Frame.

Import Frame.

(** *** Counting and sorting a column *)

Module Counts.

(** A Series of counts: the distinct values as index, their counts as
    values. *)
Abbreviation CountSeries := (list (cell * nat)).

Definition occurrences (k : cell) (s : Series) : nat :=
  length (filter (λ v, v = k) s).

Definition count_ge (a b : cell * nat) : Prop := (b.2 ≤ a.2)%nat.

#[global] Instance count_ge_dec a b : Decision (count_ge a b).
Proof. unfold count_ge. apply _. Defined.

(** [s.value_counts()]: nulls are left out; one entry per distinct value,
    the most frequent first. *)
Definition value_counts (s : Series) : CountSeries :=
  let vals := filter (λ v, notna v = true) s in
  merge_sort count_ge
    ((λ k, (k, occurrences k vals)) <$> remove_dups vals).

(** The kinds of index values Python can order among themselves. *)
Inductive key_kind := numeric_keys | string_keys | datetime_keys.

#[global] Instance key_kind_eq_dec : EqDecision key_kind.
Proof. solve_decision. Defined.

Definition kind_of (k : cell) : option key_kind :=
  match k with
  | Int _ | Float _ => Some numeric_keys
  | Str _ => Some string_keys
  | Datetime _ => Some datetime_keys
  | NA | Geom _ => None
  end.

(** The number a numeric or date key is ordered by. *)
Definition key_num (k : cell) : Qc :=
  match k with
  | Int z => Qc_of_Z z
  | Float q => q
  | Datetime t =>
      Qc_of_Z (((((year t * 12 + month t) * 31 + day t) * 24 + hour t) * 60 + minute t) * 60 + second t)
  | _ => 0%Qc
  end.

Definition key_str (k : cell) : string :=
  match k with Str s => s | _ => EmptyString end.

Definition num_le (a b : cell * nat) : Prop := (key_num a.1 ≤ key_num b.1)%Qc.
Definition str_le (a b : cell * nat) : Prop := String.leb (key_str a.1) (key_str b.1) = true.

#[global] Instance num_le_dec a b : Decision (num_le a b).
Proof. unfold num_le. apply _. Defined.
#[global] Instance str_le_dec a b : Decision (str_le a b).
Proof. unfold str_le. apply _. Defined.

(** [s.sort_index()]: ascending by index value. Values of different kinds
    cannot be compared and raise [TypeError]. *)
Definition sort_index (s : CountSeries) : result CountSeries :=
  match s with
  | [] => Ok []
  | (k0, _) :: _ =>
      match kind_of k0 with
      | None => Raise (TypeError "'<' not supported between instances")
      | Some kd =>
          if forallb (λ kv : cell * nat, bool_decide (kind_of kv.1 = Some kd)) s then
            Ok (match kd with
                | string_keys => merge_sort str_le s
                | _ => merge_sort num_le s
                end)
          else Raise (TypeError "'<' not supported between instances")
      end
  end.

End Counts.

Import Counts.

(** ** Spatial tables (geopandas) and delimited files *)

Module Spatial.

Record GeoDataFrame := mkGeoDataFrame {
  frame : DataFrame;
  crs : string
}.

(** A coordinate read from a cell: a number, or NaN for a null. *)
Definition coordinate (v : cell) : result (option Qc) :=
  match v with
  | Float q => Ok (Some q)
  | Int z => Ok (Some (Qc_of_Z z))
  | NA => Ok None
  | _ => Raise (TypeError "must be real number")
  end.

(** [Point(xy)] for a pair [xy = (x, y)] of cells. *)
Definition Point_of (xy : cell * cell) : result Point :=
  x ← coordinate xy.1;
  y ← coordinate xy.2;
  Ok (match x, y with
      | Some x, Some y => PointXY x y
      | _, _ => PointNaN
      end).

(** [gpd.GeoDataFrame(df, geometry=geometry, crs=crs)]: the list becomes
    the column [geometry], row by row. *)
Definition GeoDataFrame_of (df : DataFrame) (geometry : list Point) (crs : string)
  : result GeoDataFrame :=
  fr ← setitem "geometry" (Geom <$> geometry) df;
  Ok (mkGeoDataFrame fr crs).

(** [gdf.geometry.within(poly)]: one boolean per row. *)
Definition geometry_within (gdf : GeoDataFrame) (poly : Polygon) : result (list bool) :=
  s ← getitem "geometry" (frame gdf);
  mapM (λ v, match v with
             | Geom p => Ok (within p poly)
             | NA => Ok false
             | _ => Raise (TypeError "Input must be valid geometry objects")
             end) s.

(** [gdf[mask]] *)
Definition geo_getitem_mask (mask : list bool) (gdf : GeoDataFrame) : result GeoDataFrame :=
  fr ← getitem_mask mask (frame gdf);
  Ok (mkGeoDataFrame fr (crs gdf)).

(** A delimited file: its separator, its header line and its records, each
    a list of fields. A field holds the value whose text is written (a
    geometry is written as its well-known text). *)
Record CsvFile := mkCsvFile {
  sep : string;
  header : list string;
  records : list (list cell)
}.

(** [df.to_csv(path, index=index)]: comma separated, with a header line.
    With [index=True] the row labels are written as a first, unnamed
    column. *)
Definition to_csv (df : DataFrame) (index : bool) : CsvFile :=
  mkCsvFile ","
    ((if index then [EmptyString] else []) ++ columns df)
    ((λ r, (if index then [Int (label r)] else []) ++ ((λ c, row_get c r) <$> columns df))
       <$> rows df).

End Spatial.

Import Spatial.

(** ** The script *)

(** *** 1. Load and preprocess data *)

(** [date_value.year] *)
Definition attr_year (date_value : cell) : result Z :=
  match date_value with
  | Datetime t => Ok (year t)
  | _ => Raise (AttributeError "object has no attribute 'year'")
  end.

(** [date_value.replace(year=y)] *)
Definition replace (date_value : cell) (y : Z) : result cell :=
  match date_value with
  | Datetime t => Datetime <$> replace_year t y
  | _ => Raise (AttributeError "object has no attribute 'replace'")
  end.

Definition correct_future_dates (date_value : cell) : result cell :=
  if notna date_value then
    y ← attr_year date_value;
    if 2026 <=? y then
      let corrected_year := y - 100 in
      replace date_value corrected_year
    else Ok date_value
  else Ok date_value.

Definition cols_to_keep : list string :=
  ["latitude"; "longitude"; "date"; "year"; "month"; "day";
   "type"; "basisOfRecord"; "gbifID"; "occurrenceID"].

(** The dictionary passed to [df.rename] on line 15. *)
Definition script_mapper : list (string * string) :=
  [("decimalLatitude", "latitude"); ("decimalLongitude", "longitude")].

(** [df[dst] = f(df[src])] *)
Definition assign (dst src : string) (f : Series → result Series) (df : DataFrame)
  : result DataFrame :=
  s ← getitem src df;
  v ← f s;
  setitem dst v df.

(** Lines 12 to 61: from the table as read to the cleaned table. *)
Definition preprocess (df : DataFrame) : result DataFrame :=
  df ← dropna ["decimalLatitude"; "decimalLongitude"] df;
  let df := rename script_mapper df in
  df ← assign "date" "date" (λ s, to_datetime s errors_raise) df;
  df ← assign "date" "date" (apply correct_future_dates) df;
  df ← assign "year" "date" (dt_field year) df;
  df ← assign "month" "date" (dt_field month) df;
  df ← assign "day" "date" (dt_field day) df;
  df ← assign "year" "year" (λ s, Ok (to_numeric_coerce s)) df;
  df ← dropna ["year"] df;
  df ← select cols_to_keep df;
  df ← dropna ["date"] df;
  df ← assign "system:time_start" "date" dt_strftime_iso df;
  drop ["date"] df.

(** *** 2. Create objects for GeoPandas *)

(** A decimal literal of the source as a coordinate. *)
Definition deg (q : Q) : Qc := Q2Qc q.

Definition mbc_coords : list Coord := [
  (deg (-91.17999732980365), deg 13.63943856854202);
  (deg (-87.99396217355365), deg 12.890920733564085);
  (deg (-86.28009498605365), deg 11.171791270208502);
  (deg (-86.60968482980365), deg 10.394749848494728);
  (deg (-84.91779029855365), deg 9.203908557876208);
  (deg (-84.58820045480365), deg 8.726417117304832);
  (deg (-82.17120826730365), deg 7.704314168195366);
  (deg (-81.31427467355365), deg 6.701561688309798);
  (deg (-79.64435279855365), deg 6.963360801589284);
  (deg (-80.14972389230365), deg 8.074313176857796);
  (deg (-79.24884498605365), deg 8.661256539681315);
  (deg (-78.67755592355365), deg 8.509171427457526);
  (deg (-78.56769264230365), deg 7.747860548091974);
  (deg (-77.68878639230365), deg 6.832479161099103);
  (deg (-77.00763404855365), deg 8.400502150062856);
  (deg (-77.16144264230365), deg 8.900122834773223);
  (deg (-79.09503639230365), deg 9.962213910373398);
  (deg (-80.06183326730365), deg 9.594105879246467);
  (deg (-81.29230201730365), deg 9.095443159836616);
  (deg (-82.02264812311589), deg 9.404240152262705);
  (deg (-82.81366374811589), deg 9.945741454623418);
  (deg (-83.47284343561589), deg 10.875001838805666);
  (deg (-82.85760906061589), deg 14.794687086681176);
  (deg (-83.12128093561589), deg 15.26155118610412);
  (deg (-84.79120281061589), deg 16.128830744255552);
  (deg (-88.41669109186589), deg 15.959896599637476);
  (deg (-86.21942546686589), deg 21.615194199233745);
  (deg (-87.99921062311589), deg 21.839721773016596);
  (deg (-90.24042156061589), deg 21.533461083001235);
  (deg (-91.62469890436589), deg 18.91527033275978);
  (deg (-94.28339031061589), deg 18.519870571992328);
  (deg (-93.93182781061589), deg 17.43308907587558);
  (deg (-94.43719890436589), deg 15.85424027498519);
  (deg (-91.17999732980365), deg 13.63943856854202)
].

Definition mbc_polygon : result Polygon := Polygon_of mbc_coords.

(** [[Point(xy) for xy in zip(df["longitude"], df["latitude"])]] *)
Definition geometry (df : DataFrame) : result (list Point) :=
  lon ← getitem "longitude" df;
  lat ← getitem "latitude" df;
  mapM Point_of (zip lon lat).

Definition gdf (df : DataFrame) (geometry : list Point) : result GeoDataFrame :=
  GeoDataFrame_of df geometry "EPSG:4326".

(** *** 3. Filter to only get the records inside MBC *)

Definition mbc_gdf (gdf : GeoDataFrame) (mbc_polygon : Polygon) : result GeoDataFrame :=
  mask ← geometry_within gdf mbc_polygon;
  geo_getitem_mask mask gdf.

(** *** 4. Visualize data, export *)

Definition year_counts (mbc_gdf : GeoDataFrame) : result CountSeries :=
  s ← getitem "year" (frame mbc_gdf);
  sort_index (value_counts s).

Definition export_path : string := "data/mbc_jaguar_occurence.csv".

Definition export (mbc_gdf : GeoDataFrame) : CsvFile :=
  to_csv (frame mbc_gdf) false.

(** *** The script as a sequence of statements over its global names *)

Module Script.

Inductive Value :=
| VFrame (d : DataFrame)
| VCoords (l : list Coord)
| VPolygon (p : Polygon)
| VPoints (l : list Point)
| VGeoFrame (g : GeoDataFrame)
| VCounts (c : CountSeries).

(** What the run reads from outside: the occurrence table as [read_csv]
    returns it and the outcome of fetching the country boundaries. *)
Record World := mkWorld {
  occurrence_txt : result DataFrame;
  countries_zip : result unit
}.

(** The global names of the module and the files written so far. *)
Record State := mkState {
  globals : gmap string Value;
  files : gmap string CsvFile
}.

Definition init : State := mkState ∅ ∅.

Definition bind_name (x : string) (v : Value) (st : State) : State :=
  mkState (<[x := v]> (globals st)) (files st).

Definition name_error {A} (x : string) : result A := Raise (NameError x).
Definition kind_error {A} : result A := Raise (TypeError "unexpected object").

Definition get_frame (x : string) (st : State) : result DataFrame :=
  match globals st !! x with
  | Some (VFrame d) => Ok d | Some _ => kind_error | None => name_error x end.
Definition get_coords (x : string) (st : State) : result (list Coord) :=
  match globals st !! x with
  | Some (VCoords l) => Ok l | Some _ => kind_error | None => name_error x end.
Definition get_polygon (x : string) (st : State) : result Polygon :=
  match globals st !! x with
  | Some (VPolygon p) => Ok p | Some _ => kind_error | None => name_error x end.
Definition get_points (x : string) (st : State) : result (list Point) :=
  match globals st !! x with
  | Some (VPoints l) => Ok l | Some _ => kind_error | None => name_error x end.
Definition get_geoframe (x : string) (st : State) : result GeoDataFrame :=
  match globals st !! x with
  | Some (VGeoFrame g) => Ok g | Some _ => kind_error | None => name_error x end.

Definition Statement : Type := State → result State.

(** Line 9 *)
Definition stmt_read (w : World) : Statement := λ st,
  d ← occurrence_txt w;
  Ok (bind_name "df" (VFrame d) st).

(** Lines 12 to 61 *)
Definition stmt_preprocess : Statement := λ st,
  d ← get_frame "df" st;
  d ← preprocess d;
  Ok (bind_name "df" (VFrame d) st).

(** Lines 66 to 101 *)
Definition stmt_mbc_coords : Statement := λ st,
  Ok (bind_name "mbc_coords" (VCoords mbc_coords) st).

(** Line 104 *)
Definition stmt_mbc_polygon : Statement := λ st,
  c ← get_coords "mbc_coords" st;
  p ← Polygon_of c;
  Ok (bind_name "mbc_polygon" (VPolygon p) st).

(** Line 107 *)
Definition stmt_geometry : Statement := λ st,
  d ← get_frame "df" st;
  g ← geometry d;
  Ok (bind_name "geometry" (VPoints g) st).

(** Line 109 *)
Definition stmt_gdf : Statement := λ st,
  d ← get_frame "df" st;
  g ← get_points "geometry" st;
  r ← gdf d g;
  Ok (bind_name "gdf" (VGeoFrame r) st).

(** Line 112 *)
Definition stmt_mbc_gdf : Statement := λ st,
  g ← get_geoframe "gdf" st;
  p ← get_polygon "mbc_polygon" st;
  r ← mbc_gdf g p;
  Ok (bind_name "mbc_gdf" (VGeoFrame r) st).

(** Lines 117 to 136: the map needs the country boundaries; drawing reads
    the names and binds none of those modelled here. *)
Definition stmt_map (w : World) : Statement := λ st,
  _ ← countries_zip w;
  _ ← get_polygon "mbc_polygon" st;
  _ ← get_geoframe "gdf" st;
  _ ← get_geoframe "mbc_gdf" st;
  Ok st.

(** Lines 139 to 146 *)
Definition stmt_year_counts : Statement := λ st,
  g ← get_geoframe "mbc_gdf" st;
  c ← year_counts g;
  Ok (bind_name "year_counts" (VCounts c) st).

(** Line 149 *)
Definition stmt_export : Statement := λ st,
  g ← get_geoframe "mbc_gdf" st;
  Ok (mkState (globals st) (<[export_path := export g]> (files st))).

Definition script (w : World) : list Statement :=
  [stmt_read w; stmt_preprocess; stmt_mbc_coords; stmt_mbc_polygon; stmt_geometry;
   stmt_gdf; stmt_mbc_gdf; stmt_map w; stmt_year_counts; stmt_export].

Fixpoint exec (stmts : list Statement) (st : State) : result State :=
  match stmts with
  | [] => Ok st
  | s :: rest => st' ← s st; exec rest st'
  end.

Definition run (w : World) : result State := exec (script w) init.

End Script.

Import Script.

(** ** Sample tables

    A small occurrence table in the layout of the GBIF export: the columns
    the script reads and one it discards. *)

Definition sample_columns : list string :=
  ["gbifID"; "occurrenceID"; "basisOfRecord"; "type"; "date";
   "decimalLatitude"; "decimalLongitude"; "species"].

Definition sample_row (i : Z) (lat lon date : cell) : Row :=
  (i, list_to_map
        [("gbifID", Int (1000 + i)); ("occurrenceID", Str "urn:occurrence");
         ("basisOfRecord", Str "HUMAN_OBSERVATION"); ("type", NA); ("date", date);
         ("decimalLatitude", lat); ("decimalLongitude", lon);
         ("species", Str "Panthera onca")]).

(** Seven rows: inside the corridor, without latitude, at (0, 0), on a
    vertex of the corridor ring, without date, and two more inside. *)
Definition sample_table : DataFrame :=
  mkDataFrame sample_columns
    [sample_row 0 (Float (deg 10.0)) (Float (deg (-85.0))) (Str "01/15/47");
     sample_row 1 NA (Float (deg (-85.0))) (Str "06/01/99");
     sample_row 2 (Float (deg 0.0)) (Float (deg 0.0)) (Str "06/01/99");
     sample_row 3 (Float (deg 13.63943856854202)) (Float (deg (-91.17999732980365))) (Str "3/7/05");
     sample_row 4 (Float (deg 10.0)) (Float (deg (-85.0))) NA;
     sample_row 5 (Float (deg 17.5)) (Float (deg (-89.0))) (Str "12/31/47");
     sample_row 6 (Float (deg 17.5)) (Float (deg (-89.0))) (Str "12/31/99")].

Definition sample_world : World := mkWorld (Ok sample_table) (Ok ()).

(** Two rows with coordinates; the date of the second one is written
    year first. *)
Definition malformed_date_table : DataFrame :=
  mkDataFrame sample_columns
    [sample_row 0 (Float (deg 10.0)) (Float (deg (-85.0))) (Str "01/15/47");
     sample_row 1 (Float (deg 17.5)) (Float (deg (-89.0))) (Str "1947-01-15")].

(** ** Relations between the tables of the stages *)

(** A statement that leaves the binding of [x] as it is. *)
Definition keeps (x : string) (s : Statement) : Prop :=
  ∀ st st', s st = Ok st' → globals st' !! x = globals st !! x.

(** The rows [l'] come from rows of [l], in order, each related by [R] to
    the row it comes from; rows of [l] may have been dropped. *)
Definition rows_from (R : Row → Row → Prop) (l l' : list Row) : Prop :=
  ∃ k, sublist k l ∧ Forall2 R k l'.

(** A cleaned row [r'] and the row [r] of the table as read that it comes
    from: same label, the coordinates of [r] (both non-null) under their new
    names, the fields of the parsed and corrected date [t], its ISO text,
    and the four columns carried over. *)
Definition cleaned_from (r r' : Row) : Prop :=
  label r' = label r ∧
  ∃ t,
    notna (row_get "decimalLatitude" r) = true ∧
    notna (row_get "decimalLongitude" r) = true ∧
    to_datetime_value errors_raise (row_get "date" r) ≫= correct_future_dates
      = Ok (Datetime t) ∧
    row_get "latitude" r' = row_get "decimalLatitude" r ∧
    row_get "longitude" r' = row_get "decimalLongitude" r ∧
    row_get "year" r' = Int (year t) ∧
    row_get "month" r' = Int (month t) ∧
    row_get "day" r' = Int (day t) ∧
    row_get "system:time_start" r' = Str (strftime_iso t) ∧
    row_get "type" r' = row_get "type" r ∧
    row_get "basisOfRecord" r' = row_get "basisOfRecord" r ∧
    row_get "gbifID" r' = row_get "gbifID" r ∧
    row_get "occurrenceID" r' = row_get "occurrenceID" r.

(** The columns of the cleaned table. *)
Definition cleaned_columns : list string :=
  ["latitude"; "longitude"; "year"; "month"; "day";
   "type"; "basisOfRecord"; "gbifID"; "occurrenceID"; "system:time_start"].

(** A retained record: latitude, longitude and year are not null. *)
Definition retained (r : Row) : Prop :=
  notna (row_get "latitude" r) = true ∧
  notna (row_get "longitude" r) = true ∧
  notna (row_get "year" r) = true.

(** The row lies within the polygon according to its geometry cell. *)
Definition row_within (poly : Polygon) (r : Row) : bool :=
  match row_get "geometry" r with
  | Geom p => within p poly
  | _ => false
  end.

(** What holds of a table [t] downstream of the table as read: its records
    are retained records, and no row of the table as read that lacks a
    coordinate has its label in [t]. *)
Definition downstream_ok (table t : DataFrame) : Prop :=
  Forall retained (rows t) ∧
  ∀ r, r ∈ rows table →
       isna (row_get "decimalLatitude" r) = true ∨ isna (row_get "decimalLongitude" r) = true →
       label r ∉ index t.

(** The tables of the stages on [sample_table]. *)
Definition sample_stages : result (DataFrame * list Point * GeoDataFrame * GeoDataFrame) :=
  cleaned ← preprocess sample_table;
  pts ← geometry cleaned;
  geo ← gdf cleaned pts;
  filtered ← mbc_gdf geo (mkPolygon mbc_coords);
  Ok (cleaned, pts, geo, filtered).

(** One row on the first vertex of the corridor ring. *)
Definition vertex_table : DataFrame :=
  mkDataFrame sample_columns
    [sample_row 0 (Float (deg 13.63943856854202)) (Float (deg (-91.17999732980365)))
       (Str "3/7/05")].

(** The first vertex of the corridor ring as a point. *)
Definition vertex_point : Point :=
  PointXY (deg (-91.17999732980365)) (deg 13.63943856854202).

(** The stages on [vertex_table]: the geolocated table has one row, its
    geometry is the vertex, and the filtered table has no row. *)
Definition vertex_check : result bool :=
  cleaned ← preprocess vertex_table;
  pts ← geometry cleaned;
  geo ← gdf cleaned pts;
  filtered ← mbc_gdf geo (mkPolygon mbc_coords);
  Ok (bool_decide (length (rows (frame geo)) = 1%nat ∧
                   Forall (λ r, row_get "geometry" r = Geom vertex_point) (rows (frame geo)) ∧
                   rows (frame filtered) = [])).

(** The number of rows of the table with the given year. *)
Definition rows_with_year (y : Z) (g : GeoDataFrame) : nat :=
  length (filter (λ r, row_get "year" r = Int y) (rows (frame g))).

(** An entry of the counts that stands for the year [y] with the number of
    rows of that year, which is not zero. *)
Definition year_entry (g : GeoDataFrame) (kv : cell * nat) : Prop :=
  ∃ y, kv.1 = Int y ∧ kv.2 = rows_with_year y g ∧ (0 < kv.2)%nat.

(** The entry [a] comes before [b]: its year is smaller. *)
Definition year_before (a b : cell * nat) : Prop :=
  ∃ y1 y2, a.1 = Int y1 ∧ b.1 = Int y2 ∧ y1 < y2.

(** ** Further relations on the tables and the run *)

(** The columns the cleaning stage reads from the table as read. *)
Definition required_columns : list string :=
  ["decimalLatitude"; "decimalLongitude"; "date"; "type"; "basisOfRecord";
   "gbifID"; "occurrenceID"].

(** The date cell of a row of the table as read: a text or no value. *)
Definition date_as_read (r : Row) : Prop :=
  row_get "date" r = NA ∨ ∃ s, row_get "date" r = Str s.

(** A cleaned row whose date fields are those of a calendar day [y-m-d] with
    year 1926..2025, and whose timestamp text is that day at midnight. *)
Definition dated_in_century (r' : Row) : Prop :=
  ∃ y m d,
    1926 ≤ y ≤ 2025 ∧ valid_date y m d = true ∧
    row_get "year" r' = Int y ∧ row_get "month" r' = Int m ∧ row_get "day" r' = Int d ∧
    row_get "system:time_start" r' = Str (strftime_iso (mkTimestamp y m d 0 0 0)).

(** A statement that writes no file. *)
Definition writes_nothing (s : Statement) : Prop :=
  ∀ st st', s st = Ok st' → files st' = files st.

(** A run whose download of the country boundaries fails. *)
Definition offline_world : World :=
  mkWorld (Ok sample_table) (Raise (ValueError "download failed")).

(** A row of the table as read that the cleaning keeps: latitude,
    longitude and date are not null. *)
Definition kept (r : Row) : Prop :=
  all_notna ["decimalLatitude"; "decimalLongitude"; "date"] r.

#[global] Instance kept_dec r : Decision (kept r).
Proof. unfold kept. apply _. Defined.

(** The date cell of a row is null or a text that the parse accepts. *)
Definition date_parses (r : Row) : Prop :=
  row_get "date" r = NA ∨ ∃ s t, row_get "date" r = Str s ∧ strptime_mdy s = Ok t.


(** The date cell of a row after the parse and the correction. *)
Definition date_cell_ok (r : Row) : Prop :=
  row_get "date" r = NA ∨ ∃ t, row_get "date" r = Datetime t.

(** * Properties *)

(** ** The result monad *)

Lemma is_Ok_b_true {A} (m : result A) : is_Ok_b m = true → is_Ok m.
Proof. destruct m as [a|e]; [by exists a | discriminate]. Qed.

Lemma bind_Ok {A B} (m : result A) (g : A → result B) b :
  m ≫= g = Ok b → ∃ a, m = Ok a ∧ g a = Ok b.
Proof. destruct m as [a|e]; simpl; [eauto | discriminate]. Qed.

Section result_lemmas.
Context {A B : Type}.
Implicit Types (f : A → result B) (l : list A) (k : list B).

Lemma mapM_Ok_1 f l k : mapM f l = Ok k → Forall2 (λ x y, f x = Ok y) l k.
Proof.
  revert k. induction l as [|x l IH]; intros k; simpl.
  - intros [= <-]. constructor.
  - intros H. apply bind_Ok in H as (y & Hy & H).
    apply bind_Ok in H as (k' & Hk' & [= <-]).
    constructor; auto.
Qed.

Lemma mapM_pure (g : A → B) l : mapM (λ x, Ok (g x)) l = Ok (g <$> l).
Proof. induction l as [|x l IH]; simpl; [done|]. by rewrite IH. Qed.
End result_lemmas.

(** ** Dates *)

Lemma valid_date_century y m d :
  valid_date y m d = true → 2026 ≤ y < 2400 → valid_date (y - 100) m d = true.
Proof.
  unfold valid_date, days_in_month, is_leap. intros H Hy.
  repeat (apply andb_prop in H as [H ?]).
  repeat (apply andb_true_intro; split); try lia.
  destruct (m =? 2); [|done].
  destruct (y mod 4 =? 0) eqn:E4; simpl in *.
  - apply Z.eqb_eq in E4.
    assert (((y - 100) mod 4 =? 0) = true) as ->
      by (apply Z.eqb_eq; Z.div_mod_to_equations; lia).
    destruct (y mod 100 =? 0) eqn:E100; simpl in *.
    + destruct (y mod 400 =? 0) eqn:E400.
      * apply Z.eqb_eq in E400. exfalso. Z.div_mod_to_equations. lia.
      * simpl. destruct (_ || _); lia.
    + apply Z.eqb_neq in E100.
      assert (((y - 100) mod 100 =? 0) = false) as ->
        by (apply Z.eqb_neq; Z.div_mod_to_equations; lia).
      done.
  - destruct (_ && _); lia.
Qed.

Lemma digit_val_range c : is_digit c = true → 0 ≤ digit_val c ≤ 9.
Proof.
  unfold is_digit, digit_val. intros H. apply andb_prop in H as [H1 H2].
  apply Nat.leb_le in H1, H2. lia.
Qed.

Lemma format_regex_mdy_year s m d yy rest :
  (m, d, yy, rest) ∈ format_regex_mdy s → 0 ≤ yy ≤ 99.
Proof.
  unfold format_regex_mdy. intros H.
  apply list_elem_of_bind in H as ([m' r1] & H & _).
  apply list_elem_of_bind in H as (r2 & H & _).
  apply list_elem_of_bind in H as ([d' r3] & H & _).
  apply list_elem_of_bind in H as (r4 & H & _).
  apply list_elem_of_bind in H as ([y r5] & H & Hy).
  apply list_elem_of_singleton in H as [= -> -> -> ->].
  unfold re_y in Hy. destruct r4 as [|c1 [|c2 r]]; try by apply elem_of_nil in Hy.
  destruct (is_digit c1) eqn:H1; [|by apply elem_of_nil in Hy].
  destruct (is_digit c2) eqn:H2; [|by apply elem_of_nil in Hy].
  apply list_elem_of_singleton in Hy as [= -> ->].
  apply digit_val_range in H1, H2. lia.
Qed.

(** What the parse returns: a calendar date at midnight whose year lies in
    1969..2068. *)
Lemma strptime_mdy_Ok s t :
  strptime_mdy s = Ok t →
  valid t = true ∧ 1969 ≤ year t ≤ 2068 ∧ hour t = 0 ∧ minute t = 0 ∧ second t = 0.
Proof.
  unfold strptime_mdy.
  destruct (format_regex_mdy _) as [|[[[m d] yy] rest] l] eqn:Hre; [done|].
  destruct rest; [|done].
  destruct (valid_date _ _ _) eqn:Hv; [|done]. intros [= <-]. simpl.
  assert (0 ≤ yy ≤ 99) as Hyy.
  { eapply (format_regex_mdy_year _ m d yy []). rewrite Hre. left. }
  unfold valid. simpl. rewrite Hv. repeat split; try done;
    unfold century; destruct (yy <=? 68) eqn:E; lia.
Qed.

Example strptime_47 : strptime_mdy "01/15/47" = Ok (mkTimestamp 2047 1 15 0 0 0).
Proof. reflexivity. Qed.
Example strptime_99 : strptime_mdy "06/01/99" = Ok (mkTimestamp 1999 6 1 0 0 0).
Proof. reflexivity. Qed.
Example strptime_short : strptime_mdy "6/1/99" = Ok (mkTimestamp 1999 6 1 0 0 0).
Proof. reflexivity. Qed.
Example strptime_bad_month : raises (strptime_mdy "13/01/99").
Proof. eexists. reflexivity. Qed.
Example strptime_bad_day : raises (strptime_mdy "02/30/99").
Proof. eexists. reflexivity. Qed.
Example strptime_iso_text : raises (strptime_mdy "1947-01-15").
Proof. eexists. reflexivity. Qed.
Example strptime_trailing : raises (strptime_mdy "01/15/1947").
Proof. eexists. reflexivity. Qed.
Example strftime_47 : strftime_iso (mkTimestamp 1947 1 15 0 0 0) = "1947-01-15T00:00:00"%string.
Proof. reflexivity. Qed.

Lemma valid_valid_date t : valid t = true → valid_date (year t) (month t) (day t) = true.
Proof. unfold valid. intros H. by apply andb_prop in H as [H _]. Qed.

Lemma correct_future_dates_future t :
  valid t = true → 2026 ≤ year t < 2400 →
  correct_future_dates (Datetime t)
  = Ok (Datetime (mkTimestamp (year t - 100) (month t) (day t) (hour t) (minute t) (second t))).
Proof.
  intros Hv Hy. unfold correct_future_dates. simpl.
  destruct (2026 <=? year t) eqn:E; [|lia].
  unfold replace, replace_year.
  by rewrite (valid_date_century _ _ _ (valid_valid_date _ Hv) Hy).
Qed.

Lemma correct_future_dates_past t :
  year t < 2026 → correct_future_dates (Datetime t) = Ok (Datetime t).
Proof.
  intros Hy. unfold correct_future_dates. simpl.
  destruct (2026 <=? year t) eqn:E; [lia|done].
Qed.

(** ** Century correction *)

(** C3. A date parsed from a string with year at least 2026 comes back with
    its year lowered by 100 and its other fields kept; with year below 2026
    it comes back unchanged; the null comes back unchanged. The date
    01/15/47 ends with year 1947 and 06/01/99 with year 1999. *)
Theorem correct_future_dates_spec s t :
  strptime_mdy s = Ok t →
  (2026 ≤ year t →
     correct_future_dates (Datetime t)
     = Ok (Datetime (mkTimestamp (year t - 100) (month t) (day t)
                       (hour t) (minute t) (second t))))
  ∧ (year t < 2026 → correct_future_dates (Datetime t) = Ok (Datetime t))
  ∧ correct_future_dates NA = Ok NA
  ∧ (to_datetime_value errors_raise (Str "01/15/47") ≫= correct_future_dates) ≫= attr_year
    = Ok 1947
  ∧ (to_datetime_value errors_raise (Str "06/01/99") ≫= correct_future_dates) ≫= attr_year
    = Ok 1999.
Proof.
  intros Hs. apply strptime_mdy_Ok in Hs as (Hv & Hy & _).
  split; [|split; [|split; [|split]]]; try reflexivity.
  - intros H. apply correct_future_dates_future; [done|lia].
  - apply correct_future_dates_past.
Qed.

Lemma correct_future_dates_spec_witness :
  strptime_mdy "01/15/47" = Ok (mkTimestamp 2047 1 15 0 0 0) ∧
  correct_future_dates (Datetime (mkTimestamp 2047 1 15 0 0 0))
  = Ok (Datetime (mkTimestamp 1947 1 15 0 0 0)).
Proof.
  split; [reflexivity|].
  destruct (correct_future_dates_spec "01/15/47" (mkTimestamp 2047 1 15 0 0 0) eq_refl)
    as [H _].
  apply H. simpl. lia.
Defined.

(** C10. On a calendar date with year below 2126 the correction returns a
    date with year below 2026, and correcting that date again returns it
    unchanged; every date the two-digit-year parse produces is such a
    date. *)
Theorem correct_future_dates_idempotent t :
  valid t = true → year t < 2126 →
  (∃ t', correct_future_dates (Datetime t) = Ok (Datetime t') ∧ year t' < 2026 ∧
         correct_future_dates (Datetime t') = Ok (Datetime t'))
  ∧ correct_future_dates (Datetime t) ≫= correct_future_dates
    = correct_future_dates (Datetime t)
  ∧ (∀ s t0, strptime_mdy s = Ok t0 → valid t0 = true ∧ year t0 < 2126).
Proof.
  intros Hv Hy.
  assert (∃ t', correct_future_dates (Datetime t) = Ok (Datetime t') ∧ year t' < 2026 ∧
                correct_future_dates (Datetime t') = Ok (Datetime t')) as Hex.
  { destruct (decide (2026 ≤ year t)) as [Hge|Hlt].
    - eexists. split; [apply correct_future_dates_future; [done|lia]|].
      simpl. split; [lia|]. apply correct_future_dates_past. simpl. lia.
    - exists t. split; [apply correct_future_dates_past; lia|].
      split; [lia|]. apply correct_future_dates_past; lia. }
  split; [exact Hex|]. split.
  - destruct Hex as (t' & H1 & _ & H2). rewrite H1. simpl. exact H2.
  - intros s t0 Hs. apply strptime_mdy_Ok in Hs as (? & ? & _). split; [done|lia].
Qed.

Lemma correct_future_dates_idempotent_witness :
  correct_future_dates (Datetime (mkTimestamp 2068 2 29 0 0 0)) ≫= correct_future_dates
  = correct_future_dates (Datetime (mkTimestamp 2068 2 29 0 0 0)).
Proof.
  refine (proj1 (proj2 (correct_future_dates_idempotent (mkTimestamp 2068 2 29 0 0 0) _ _))).
  - reflexivity.
  - simpl. lia.
Defined.

(** ** The date parse of the cleaning stage *)

(** C1. On a table whose second row has coordinates and the date text
    1947-01-15, the cleaning stage raises [ValueError]: the parse of line
    21 runs with [errors="raise"], so the row does not become null-dated.
    With [errors="coerce"] the same value is parsed to the null. *)
Theorem preprocess_malformed_date_raises :
  preprocess malformed_date_table = Raise (ValueError "time data doesn't match format")
  ∧ to_datetime_value errors_raise (Str "1947-01-15")
    = Raise (ValueError "time data doesn't match format")
  ∧ to_datetime_value errors_coerce (Str "1947-01-15") = Ok NA.
Proof. split; [|split]; vm_compute; reflexivity. Qed.

(** ** The corridor ring *)

Lemma exec_app l1 l2 st : exec (l1 ++ l2) st = exec l1 st ≫= exec l2.
Proof.
  revert st. induction l1 as [|s l1 IH]; intros st; simpl; [done|].
  destruct (s st) as [st'|e]; simpl; [apply IH|done].
Qed.

Lemma exec_keeps x stmts st st' :
  Forall (keeps x) stmts → exec stmts st = Ok st' → globals st' !! x = globals st !! x.
Proof.
  intros Hall. revert st. induction Hall as [|s l Hs _ IH]; intros st; simpl.
  - by intros [= ->].
  - intros H. apply bind_Ok in H as (st1 & H1 & H2).
    rewrite (IH _ H2). by apply Hs.
Qed.

Ltac keeps_by_binding :=
  let st := fresh "st" in let st' := fresh "st'" in let H := fresh "H" in
  intros st st' H;
  repeat (apply bind_Ok in H as (? & _ & H));
  injection H as <-; cbn [globals bind_name];
  try rewrite lookup_insert_ne by done; reflexivity.

Lemma keeps_tail x (w : World) :
  x = "mbc_coords" ∨ x = "mbc_polygon" →
  Forall (keeps x) [stmt_geometry; stmt_gdf; stmt_mbc_gdf; stmt_map w; stmt_year_counts; stmt_export].
Proof.
  intros Hx. repeat apply Forall_cons_2; try apply Forall_nil_2;
    destruct Hx as [-> | ->]; keeps_by_binding.
Qed.

Lemma keeps_mbc_polygon : keeps "mbc_coords" stmt_mbc_polygon.
Proof. keeps_by_binding. Qed.

Lemma Polygon_of_mbc_coords : Polygon_of mbc_coords = Ok (mkPolygon mbc_coords).
Proof. vm_compute. reflexivity. Qed.

(** C9. The ring is the literal of 34 coordinate pairs whose last pair
    repeats the first one, so that it has 33 distinct vertices; the polygon
    is built from exactly these pairs; and from the statement that binds
    [mbc_coords] on (and the one that binds [mbc_polygon]), every later
    state of the run holds the same ring and the same polygon. *)
Theorem mbc_coords_fixed_ring (w : World) (n : nat) (st : State) :
  (3 ≤ n)%nat →
  exec (take n (script w)) init = Ok st →
  length mbc_coords = 34%nat
  ∧ head mbc_coords = last mbc_coords
  ∧ NoDup (take 33 mbc_coords)
  ∧ mbc_polygon = Ok (mkPolygon mbc_coords)
  ∧ globals st !! "mbc_coords" = Some (VCoords mbc_coords)
  ∧ ((4 ≤ n)%nat → globals st !! "mbc_polygon" = Some (VPolygon (mkPolygon mbc_coords))).
Proof.
  intros Hn Hex.
  split; [reflexivity|]. split; [reflexivity|].
  split; [apply (bool_decide_unpack _); vm_compute; reflexivity|].
  split; [apply Polygon_of_mbc_coords|].
  assert (take n (script w)
          = [stmt_read w; stmt_preprocess; stmt_mbc_coords]
            ++ take (n - 3) [stmt_mbc_polygon; stmt_geometry; stmt_gdf; stmt_mbc_gdf;
                             stmt_map w; stmt_year_counts; stmt_export]) as Hsplit.
  { change (script w) with
      ([stmt_read w; stmt_preprocess; stmt_mbc_coords]
         ++ [stmt_mbc_polygon; stmt_geometry; stmt_gdf; stmt_mbc_gdf;
             stmt_map w; stmt_year_counts; stmt_export]).
    rewrite take_app_ge by (simpl; lia). done. }
  rewrite Hsplit, exec_app in Hex.
  apply bind_Ok in Hex as (st3 & H3 & Hrest).
  assert (globals st3 !! "mbc_coords" = Some (VCoords mbc_coords)) as Hc3.
  { cbn [exec] in H3. apply bind_Ok in H3 as (st1 & _ & H3).
    apply bind_Ok in H3 as (st2 & _ & H3). injection H3 as <-.
    cbn [globals bind_name]. apply lookup_insert_eq. }
  split.
  - rewrite <- Hc3. eapply exec_keeps; [|exact Hrest].
    apply Forall_take. apply Forall_cons_2; [apply keeps_mbc_polygon|].
    apply keeps_tail. by left.
  - intros Hn4. destruct (n - 3)%nat as [|k] eqn:Hk; [lia|].
    cbn [take exec] in Hrest. apply bind_Ok in Hrest as (st4 & H4 & Hrest).
    assert (globals st4 !! "mbc_polygon" = Some (VPolygon (mkPolygon mbc_coords))) as Hp4.
    { unfold stmt_mbc_polygon, get_coords in H4. rewrite Hc3 in H4.
      cbn [mbind result_bind] in H4.
      rewrite Polygon_of_mbc_coords in H4. injection H4 as <-.
      cbn [globals bind_name]. apply lookup_insert_eq. }
    rewrite <- Hp4. eapply exec_keeps; [|exact Hrest].
    apply Forall_take, keeps_tail. by right.
Qed.

Lemma sample_run_Ok : ∃ st, run sample_world = Ok st.
Proof. apply is_Ok_b_true. vm_compute. reflexivity. Qed.

Lemma mbc_coords_fixed_ring_witness :
  ∃ st, exec (take 10 (script sample_world)) init = Ok st ∧
        globals st !! "mbc_coords" = Some (VCoords mbc_coords) ∧
        globals st !! "mbc_polygon" = Some (VPolygon (mkPolygon mbc_coords)).
Proof.
  destruct sample_run_Ok as [st Hrun]. exists st.
  change (take 10 (script sample_world)) with (script sample_world).
  split; [exact Hrun|].
  destruct (mbc_coords_fixed_ring sample_world 10 st) as (_ & _ & _ & _ & Hc & Hp).
  - lia.
  - exact Hrun.
  - split; [exact Hc | apply Hp; lia].
Defined.

(** ** Cells of a row *)

Lemma row_get_set_cell c d v (r : Row) :
  row_get c (set_cell d v r) = if decide (d = c) then v else row_get c r.
Proof.
  unfold row_get, set_cell. simpl. destruct (decide (d = c)) as [->|Hne].
  - by rewrite lookup_insert_eq.
  - by rewrite lookup_insert_ne.
Qed.

Lemma row_get_set_cell_eq c v (r : Row) : row_get c (set_cell c v r) = v.
Proof. rewrite row_get_set_cell. by rewrite decide_True. Qed.

Lemma row_get_set_cell_ne c d v (r : Row) :
  d ≠ c → row_get c (set_cell d v r) = row_get c r.
Proof. intros. rewrite row_get_set_cell. by rewrite decide_False. Qed.

Lemma row_get_keep_cells (names : list string) c (r : Row) :
  c ∈ names → row_get c (keep_cells names r) = row_get c r.
Proof.
  intros Hc. unfold row_get, keep_cells. simpl. destruct (r.2 !! c) as [v|] eqn:E.
  - by rewrite (map_lookup_filter_Some_2 _ _ _ _ E).
  - rewrite map_lookup_filter_None_2; [done|]. by left.
Qed.

Lemma row_get_drop_cells (names : list string) c (r : Row) :
  c ∉ names → row_get c (drop_cells names r) = row_get c r.
Proof.
  intros Hc. unfold row_get, drop_cells. simpl. destruct (r.2 !! c) as [v|] eqn:E.
  - by rewrite (map_lookup_filter_Some_2 _ _ _ _ E).
  - rewrite map_lookup_filter_None_2; [done|]. by left.
Qed.

Lemma notna_lookup c (r : Row) :
  notna (row_get c r) = true → ∃ v, r.2 !! c = Some v ∧ v ≠ NA.
Proof.
  unfold row_get. destruct (r.2 !! c) as [v|]; simpl; [|done].
  intros H. exists v. split; [done|]. by intros ->.
Qed.

Lemma rename_key_new old new m v :
  m !! old = Some v → rename_key old new m !! new = Some v.
Proof. intros H. unfold rename_key. rewrite H. apply lookup_insert_eq. Qed.

Lemma rename_key_other old new m c :
  c ≠ old → c ≠ new → rename_key old new m !! c = m !! c.
Proof.
  intros H1 H2. unfold rename_key. destruct (m !! old); [|done].
  rewrite lookup_insert_ne by done. by rewrite lookup_delete_ne.
Qed.

(** ** Operations on frames *)

Lemma getitem_Ok c df s :
  getitem c df = Ok s → c ∈ columns df ∧ s = row_get c <$> rows df.
Proof. unfold getitem. case_decide; [|done]. by intros [= <-]. Qed.

Lemma setitem_Ok c values df df' :
  setitem c values df = Ok df' →
  length values = length (rows df) ∧
  columns df' = (if decide (c ∈ columns df) then columns df else columns df ++ [c]) ∧
  rows df' = zip_with (λ r v, set_cell c v r) (rows df) values.
Proof. unfold setitem. case_decide; [|done]. by intros [= <-]. Qed.

Lemma missing_column_None names df :
  missing_column names df = None → ∀ c, c ∈ names → c ∈ columns df.
Proof.
  unfold missing_column. intros H c Hc.
  destruct (decide (c ∈ columns df)) as [|Hn]; [done|].
  assert (c ∈ filter (λ c, c ∉ columns df) names) as Hin by by apply list_elem_of_filter.
  destruct (filter _ names); [by apply elem_of_nil in Hin | discriminate].
Qed.

Lemma dropna_Ok subset df df' :
  dropna subset df = Ok df' →
  (∀ c, c ∈ subset → c ∈ columns df) ∧
  columns df' = columns df ∧
  rows df' = filter (all_notna subset) (rows df).
Proof.
  unfold dropna. destruct (missing_column subset df) eqn:E; [done|].
  intros [= <-]. split; [by apply missing_column_None|done].
Qed.

Lemma select_Ok names df df' :
  select names df = Ok df' →
  (∀ c, c ∈ names → c ∈ columns df) ∧
  columns df' = names ∧
  rows df' = keep_cells names <$> rows df.
Proof.
  unfold select. destruct (missing_column names df) eqn:E; [done|].
  intros [= <-]. split; [by apply missing_column_None|done].
Qed.

Lemma drop_Ok names df df' :
  drop names df = Ok df' →
  (∀ c, c ∈ names → c ∈ columns df) ∧
  columns df' = filter (λ c, c ∉ names) (columns df) ∧
  rows df' = drop_cells names <$> rows df.
Proof.
  unfold drop. destruct (missing_column names df) eqn:E; [done|].
  intros [= <-]. split; [by apply missing_column_None|done].
Qed.

Lemma getitem_mask_Ok mask df df' :
  getitem_mask mask df = Ok df' →
  length mask = length (rows df) ∧
  columns df' = columns df ∧
  rows df' = fst <$> filter (λ rb : Row * bool, rb.2 = true) (zip (rows df) mask).
Proof. unfold getitem_mask. case_decide; [|done]. by intros [= <-]. Qed.

Lemma zip_with_insert_Forall2 c (f : cell → result cell) (l : list Row) (vs : list cell) :
  Forall2 (λ x y, f x = Ok y) (row_get c <$> l) vs →
  ∀ dst, Forall2 (λ r r' : Row, ∃ v, f (row_get c r) = Ok v ∧ r' = set_cell dst v r)
           l (zip_with (λ r v, set_cell dst v r) l vs).
Proof.
  revert vs. induction l as [|r l IH]; intros vs H dst; simpl in *.
  - inversion H; subst. constructor.
  - inversion H as [|x y l1 l2 Hxy Hrest]; subst. simpl. constructor; [eauto|].
    by apply IH.
Qed.

(** [df[dst] = f(df[src])] for a conversion [f] that works value by value. *)
Lemma assign_mapM_Ok dst src (f : cell → result cell) df df' :
  assign dst src (mapM f) df = Ok df' →
  src ∈ columns df ∧
  columns df' = (if decide (dst ∈ columns df) then columns df else columns df ++ [dst]) ∧
  Forall2 (λ r r' : Row, ∃ v, f (row_get src r) = Ok v ∧ r' = set_cell dst v r)
    (rows df) (rows df').
Proof.
  unfold assign. intros H.
  apply bind_Ok in H as (s & Hs & H). apply bind_Ok in H as (vs & Hvs & H).
  apply getitem_Ok in Hs as [Hsrc ->].
  apply setitem_Ok in H as (_ & Hcols & Hrows).
  split; [done|]. split; [done|]. rewrite Hrows.
  apply zip_with_insert_Forall2. by apply mapM_Ok_1.
Qed.

Lemma assign_pure_Ok dst src (g : cell → cell) df df' :
  assign dst src (λ s, Ok (g <$> s)) df = Ok df' →
  src ∈ columns df ∧
  columns df' = (if decide (dst ∈ columns df) then columns df else columns df ++ [dst]) ∧
  Forall2 (λ r r' : Row, r' = set_cell dst (g (row_get src r)) r) (rows df) (rows df').
Proof.
  intros H.
  assert (assign dst src (mapM (λ x, Ok (g x))) df = Ok df') as H'.
  { unfold assign in *. destruct (getitem src df) as [s|]; [|done]. simpl in *.
    by rewrite mapM_pure. }
  apply assign_mapM_Ok in H' as (? & ? & HF). split; [done|]. split; [done|].
  eapply Forall2_impl; [exact HF|]. intros r r' (v & [= <-] & ->). done.
Qed.

(** ** Rows that come from rows *)

Lemma rows_from_refl l : rows_from eq l l.
Proof. exists l. split; [done|]. by apply Forall_Forall2_diag, Forall_forall. Qed.

Lemma Forall2_filter_r {A B} (R : A → B → Prop) (P : B → Prop)
    `{!∀ b, Decision (P b)} l l' :
  Forall2 R l l' →
  ∃ k, sublist k l ∧ Forall2 (λ a b, R a b ∧ P b) k (filter P l').
Proof.
  induction 1 as [|a b l l' Hab _ (k & Hk & HF)].
  - exists []. split; constructor.
  - rewrite filter_cons. destruct (decide (P b)).
    + exists (a :: k). split; [by constructor|]. by constructor.
    + exists k. split; [by constructor|done].
Qed.

Lemma rows_from_filter R (P : Row → Prop) `{!∀ r, Decision (P r)} l0 l :
  rows_from R l0 l → rows_from (λ a b, R a b ∧ P b) l0 (filter P l).
Proof.
  intros (k & Hk & HF).
  destruct (Forall2_filter_r R P _ _ HF) as (k' & Hk' & HF').
  exists k'. split; [by etrans|done].
Qed.

Lemma rows_from_map R (S : Row → Row → Prop) l0 l l' :
  rows_from R l0 l → Forall2 S l l' → rows_from (λ a c, ∃ b, R a b ∧ S b c) l0 l'.
Proof.
  intros (k & Hk & HF) HS. exists k. split; [done|]. clear Hk.
  revert l' HS. induction HF as [|a b k l Hab _ IH]; intros l' HS.
  - inversion HS. constructor.
  - inversion HS as [|? c ? l'' Hbc Hrest]; subst.
    constructor; [by exists b | by apply IH].
Qed.

Lemma rows_from_fmap R (F : Row → Row) l0 l :
  rows_from R l0 l → rows_from (λ a c, ∃ b, R a b ∧ c = F b) l0 (F <$> l).
Proof.
  intros H. eapply rows_from_map; [exact H|].
  apply Forall2_fmap_r, Forall_Forall2_diag, Forall_forall. done.
Qed.

Lemma rows_from_impl (R R' : Row → Row → Prop) l0 l :
  (∀ a b, R a b → R' a b) → rows_from R l0 l → rows_from R' l0 l.
Proof.
  intros Himp (k & Hk & HF). exists k. split; [done|].
  eapply Forall2_impl; eauto.
Qed.

Lemma rows_from_elem R l0 l r' :
  rows_from R l0 l → r' ∈ l → ∃ r, r ∈ l0 ∧ R r r'.
Proof.
  intros (k & Hk & HF) Hr'.
  apply list_elem_of_lookup in Hr' as [i Hi].
  destruct (Forall2_lookup_r _ _ _ _ _ HF Hi) as (r & Hr & HR).
  exists r. split; [|done].
  eapply elem_of_sublist; [|exact Hk]. apply list_elem_of_lookup. eauto.
Qed.

(** ** The cleaning stage, row by row *)

Ltac solve_names := apply (bool_decide_unpack _); vm_compute; reflexivity.

Ltac push_row_get :=
  repeat first
    [ rewrite row_get_drop_cells by solve_names
    | rewrite row_get_keep_cells by solve_names
    | rewrite row_get_set_cell_eq
    | rewrite row_get_set_cell_ne by done ].

Lemma rename_cells_latitude (r : Row) :
  notna (row_get "decimalLatitude" r) = true →
  row_get "latitude" (rename_cells script_mapper r) = row_get "decimalLatitude" r.
Proof.
  intros H. apply notna_lookup in H as (v & Hv & _).
  unfold row_get, rename_cells, script_mapper. cbn [foldl fst snd].
  rewrite rename_key_other by done.
  by rewrite (rename_key_new _ _ _ _ Hv), Hv.
Qed.

Lemma rename_cells_longitude (r : Row) :
  notna (row_get "decimalLongitude" r) = true →
  row_get "longitude" (rename_cells script_mapper r) = row_get "decimalLongitude" r.
Proof.
  intros H. apply notna_lookup in H as (v & Hv & _).
  unfold row_get, rename_cells, script_mapper. cbn [foldl fst snd].
  erewrite rename_key_new; [by rewrite Hv|].
  by rewrite rename_key_other.
Qed.

Lemma rename_cells_other c (r : Row) :
  c ∉ ["decimalLatitude"; "latitude"; "decimalLongitude"; "longitude"] →
  row_get c (rename_cells script_mapper r) = row_get c r.
Proof.
  intros H. unfold row_get, rename_cells, script_mapper. cbn [foldl fst snd].
  rewrite !rename_key_other; [done|set_solver..].
Qed.

(** One row through the statements of the cleaning stage. *)
Lemma clean_row_chain (r0 r2 r3 r4 r5 r6 r7 r8 r10 r12 r13 : Row) v3 v4 v5 v6 v7 v12 :
  all_notna ["decimalLatitude"; "decimalLongitude"] r0 →
  r2 = rename_cells script_mapper r0 →
  to_datetime_value errors_raise (row_get "date" r2) = Ok v3 →
  r3 = set_cell "date" v3 r2 →
  correct_future_dates (row_get "date" r3) = Ok v4 →
  r4 = set_cell "date" v4 r3 →
  dt_value year (row_get "date" r4) = Ok v5 →
  r5 = set_cell "year" v5 r4 →
  dt_value month (row_get "date" r5) = Ok v6 →
  r6 = set_cell "month" v6 r5 →
  dt_value day (row_get "date" r6) = Ok v7 →
  r7 = set_cell "day" v7 r6 →
  r8 = set_cell "year" (numeric_value (row_get "year" r7)) r7 →
  all_notna ["year"] r8 →
  r10 = keep_cells cols_to_keep r8 →
  all_notna ["date"] r10 →
  strftime_value (row_get "date" r10) = Ok v12 →
  r12 = set_cell "system:time_start" v12 r10 →
  r13 = drop_cells ["date"] r12 →
  cleaned_from r0 r13.
Proof.
  intros P1 -> H3 -> H4 -> H5 -> H6 -> H7 -> -> P9 -> P11 H12 -> ->.
  unfold all_notna in *. cbn [forallb] in P1, P9.
  rewrite !andb_true_r in *. apply andb_prop in P1 as [Plat Plon].
  revert H3 H4 H5 H6 H7 P9 H12. push_row_get.
  rewrite (rename_cells_other "date") by solve_names.
  intros H3 H4 H5 H6 H7 P9 H12.
  assert (∃ t, v4 = Datetime t) as [t ->].
  { destruct v4; simpl in H5; try done; [|by eexists].
    injection H5 as <-. done. }
  simpl in H5, H6, H7, H12.
  injection H5 as <-. injection H6 as <-. injection H7 as <-. injection H12 as <-.
  split; [reflexivity|]. exists t.
  split; [done|]. split; [done|].
  split; [by rewrite H3|].
  push_row_get.
  rewrite rename_cells_latitude, rename_cells_longitude by done.
  rewrite !rename_cells_other by solve_names. done.
Qed.

(** The cleaned table: its columns, and where each of its rows comes
    from. *)
Lemma preprocess_Ok df df' :
  preprocess df = Ok df' →
  columns df' = cleaned_columns ∧ rows_from cleaned_from (rows df) (rows df').
Proof.
  unfold preprocess. intros H.
  apply bind_Ok in H as (d1 & H1 & H). cbv zeta in H.
  apply bind_Ok in H as (d3 & H3 & H).
  apply bind_Ok in H as (d4 & H4 & H).
  apply bind_Ok in H as (d5 & H5 & H).
  apply bind_Ok in H as (d6 & H6 & H).
  apply bind_Ok in H as (d7 & H7 & H).
  apply bind_Ok in H as (d8 & H8 & H).
  apply bind_Ok in H as (d9 & H9 & H).
  apply bind_Ok in H as (d10 & H10 & H).
  apply bind_Ok in H as (d11 & H11 & H).
  apply bind_Ok in H as (d12 & H12 & H13).
  apply dropna_Ok in H1 as (_ & _ & R1).
  apply assign_mapM_Ok in H3 as (_ & _ & R3).
  apply assign_mapM_Ok in H4 as (_ & _ & R4).
  apply assign_mapM_Ok in H5 as (_ & _ & R5).
  apply assign_mapM_Ok in H6 as (_ & _ & R6).
  apply assign_mapM_Ok in H7 as (_ & _ & R7).
  apply assign_pure_Ok in H8 as (_ & _ & R8).
  apply dropna_Ok in H9 as (_ & _ & R9).
  apply select_Ok in H10 as (_ & C10 & R10).
  apply dropna_Ok in H11 as (_ & C11 & R11).
  apply assign_mapM_Ok in H12 as (_ & C12 & R12).
  apply drop_Ok in H13 as (_ & C13 & R13).
  split.
  - rewrite C13, C12, C11, C10. vm_compute. reflexivity.
  - pose proof (rows_from_refl (rows df)) as F.
    apply (rows_from_filter _ (all_notna ["decimalLatitude"; "decimalLongitude"])) in F.
    rewrite <- R1 in F.
    apply (rows_from_fmap _ (rename_cells script_mapper)) in F.
    change (rename_cells script_mapper <$> rows d1) with (rows (rename script_mapper d1)) in F.
    eapply rows_from_map in F; [|exact R3].
    eapply rows_from_map in F; [|exact R4].
    eapply rows_from_map in F; [|exact R5].
    eapply rows_from_map in F; [|exact R6].
    eapply rows_from_map in F; [|exact R7].
    eapply rows_from_map in F; [|exact R8].
    apply (rows_from_filter _ (all_notna ["year"])) in F. rewrite <- R9 in F.
    apply (rows_from_fmap _ (keep_cells cols_to_keep)) in F. rewrite <- R10 in F.
    apply (rows_from_filter _ (all_notna ["date"])) in F. rewrite <- R11 in F.
    eapply rows_from_map in F; [|exact R12].
    apply (rows_from_fmap _ (drop_cells ["date"])) in F. rewrite <- R13 in F.
    eapply rows_from_impl; [|exact F]. clear.
    intros r0 r13 H. cbv beta in H.
    repeat match goal with
           | H : ∃ _, _ |- _ => destruct H as [? H]
           | H : _ ∧ _ |- _ => destruct H as [? ?]
           end.
    match goal with H : r0 = _ |- _ => subst r0 end.
    eapply clean_row_chain; eassumption.
Qed.

(** ** Geometry and the spatial filter *)

Lemma zip_fmap_same {A B C} (f : A → B) (g : A → C) (l : list A) :
  zip (f <$> l) (g <$> l) = (λ a, (f a, g a)) <$> l.
Proof. induction l as [|a l IH]; simpl; [done|]. by f_equal. Qed.

Lemma geometry_Ok df pts :
  geometry df = Ok pts →
  Forall2 (λ r p, Point_of (row_get "longitude" r, row_get "latitude" r) = Ok p)
    (rows df) pts.
Proof.
  unfold geometry. intros H.
  apply bind_Ok in H as (lon & Hlon & H). apply bind_Ok in H as (lat & Hlat & H).
  apply getitem_Ok in Hlon as [_ ->]. apply getitem_Ok in Hlat as [_ ->].
  apply mapM_Ok_1 in H. rewrite zip_fmap_same in H.
  by apply Forall2_fmap_l in H.
Qed.

Lemma gdf_Ok df pts geo :
  gdf df pts = Ok geo →
  crs geo = "EPSG:4326" ∧
  length pts = length (rows df) ∧
  columns (frame geo)
  = (if decide ("geometry" ∈ columns df) then columns df else columns df ++ ["geometry"]) ∧
  rows (frame geo) = zip_with (λ r v, set_cell "geometry" v r) (rows df) (Geom <$> pts).
Proof.
  unfold gdf, GeoDataFrame_of. intros H.
  apply bind_Ok in H as (fr & Hfr & [= <-]).
  apply setitem_Ok in Hfr as (Hlen & Hcols & Hrows).
  rewrite length_fmap in Hlen. done.
Qed.

Lemma gdf_rows_lookup df pts geo i r :
  gdf df pts = Ok geo → rows df !! i = Some r →
  ∃ p, pts !! i = Some p ∧ rows (frame geo) !! i = Some (set_cell "geometry" (Geom p) r).
Proof.
  intros H Hr. apply gdf_Ok in H as (_ & Hlen & _ & ->).
  destruct (pts !! i) as [p|] eqn:Hp.
  - exists p. split; [done|].
    rewrite lookup_zip_with, Hr. simpl. by rewrite list_lookup_fmap, Hp.
  - apply lookup_ge_None in Hp. apply lookup_lt_Some in Hr. lia.
Qed.

Lemma gdf_rows_elem df pts geo r' :
  gdf df pts = Ok geo → r' ∈ rows (frame geo) →
  ∃ r p, r ∈ rows df ∧ p ∈ pts ∧ r' = set_cell "geometry" (Geom p) r.
Proof.
  intros H Hr'. apply gdf_Ok in H as (_ & Hlen & _ & Hrows).
  rewrite Hrows in Hr'. apply elem_of_zip_with in Hr' as (r & v & -> & Hr & Hv).
  apply list_elem_of_fmap in Hv as (p & -> & Hp). eauto.
Qed.

Lemma filter_zip_mask {A} (f : A → bool) (l : list A) (mask : list bool) :
  Forall2 (λ a b, b = f a) l mask →
  fst <$> filter (λ ab : A * bool, ab.2 = true) (zip l mask) = filter (λ a, f a = true) l.
Proof.
  induction 1 as [|a b l mask -> _ IH]; [done|].
  cbn [zip_with]. rewrite !filter_cons. cbn [snd]. destruct (f a) eqn:E.
  - rewrite !decide_True by done. rewrite fmap_cons. cbn [fst]. by f_equal.
  - rewrite !decide_False by done. done.
Qed.

(** The filtered table holds the rows whose geometry is within the
    polygon, in their order, and keeps the reference system. *)
Lemma mbc_gdf_Ok geo poly filtered :
  mbc_gdf geo poly = Ok filtered →
  crs filtered = crs geo ∧
  columns (frame filtered) = columns (frame geo) ∧
  rows (frame filtered) = filter (λ r, row_within poly r = true) (rows (frame geo)).
Proof.
  unfold mbc_gdf, geometry_within, geo_getitem_mask. intros H.
  apply bind_Ok in H as (mask & Hmask & H).
  apply bind_Ok in H as (fr & Hfr & [= <-]).
  apply bind_Ok in Hmask as (s & Hs & Hmask).
  apply getitem_Ok in Hs as [_ ->].
  apply getitem_mask_Ok in Hfr as (_ & Hcols & Hrows).
  simpl. split; [done|]. split; [done|]. rewrite Hrows.
  apply filter_zip_mask. apply mapM_Ok_1, Forall2_fmap_l in Hmask.
  eapply Forall2_impl; [exact Hmask|]. intros r b. unfold row_within. simpl.
  destruct (row_get "geometry" r); intros Hb; by try injection Hb as <-.
Qed.

Lemma within_locate p poly : within p poly = true ↔ locate p poly = INTERIOR.
Proof.
  destruct p; simpl; [|done].
  rewrite bool_decide_eq_true. done.
Qed.

(** ** Retained records *)

Lemma cleaned_from_retained r r' : cleaned_from r r' → retained r'.
Proof.
  intros (_ & t & Hlat & Hlon & _ & Hlat' & Hlon' & Hy & _).
  unfold retained. by rewrite Hlat', Hlon', Hy.
Qed.

Lemma retained_set_geometry v r : retained r → retained (set_cell "geometry" v r).
Proof.
  unfold retained. by rewrite !row_get_set_cell_ne by done.
Qed.

Lemma NoDup_fst_functional {A B} (l : list (A * B)) x y1 y2 :
  NoDup (l.*1) → (x, y1) ∈ l → (x, y2) ∈ l → y1 = y2.
Proof.
  induction l as [|[a b] l IH]; intros Hnd H1 H2; [by apply elem_of_nil in H1|].
  rewrite fmap_cons in Hnd. apply NoDup_cons in Hnd as [Hnotin Hnd]. simpl in Hnotin.
  apply elem_of_cons in H1 as [H1|H1]; apply elem_of_cons in H2 as [H2|H2].
  - congruence.
  - injection H1 as -> ->. exfalso. apply Hnotin.
    apply list_elem_of_fmap. by exists (a, y2).
  - injection H2 as -> ->. exfalso. apply Hnotin.
    apply list_elem_of_fmap. by exists (a, y1).
  - by apply IH.
Qed.

Lemma preprocess_downstream table cleaned :
  NoDup (index table) → preprocess table = Ok cleaned → downstream_ok table cleaned.
Proof.
  intros Hnd H. apply preprocess_Ok in H as [_ Hrows]. split.
  - apply Forall_forall. intros r' Hr'.
    destruct (rows_from_elem _ _ _ _ Hrows Hr') as (r & _ & Hc).
    by eapply cleaned_from_retained.
  - intros r Hr Hna Hin. unfold index in Hin.
    apply list_elem_of_fmap in Hin as (r' & Hlab & Hr').
    destruct (rows_from_elem _ _ _ _ Hrows Hr') as (r0 & Hr0 & Hlab0 & t & Hlat & Hlon & _).
    assert (r0 = r) as ->.
    { destruct r0 as [i0 m0], r as [i m]. unfold label in *. simpl in *.
      assert (i0 = i) as -> by congruence.
      f_equal. eapply NoDup_fst_functional; [exact Hnd|done..]. }
    unfold notna in *. destruct Hna as [Hna|Hna]; rewrite Hna in *; done.
Qed.

Lemma downstream_ok_step table t t' :
  downstream_ok table t →
  (∀ r', r' ∈ rows t' → ∃ r, r ∈ rows t ∧ (r' = r ∨ ∃ v, r' = set_cell "geometry" v r)) →
  downstream_ok table t'.
Proof.
  intros [Hret Habs] Hstep. split.
  - apply Forall_forall. intros r' Hr'.
    destruct (Hstep r' Hr') as (r & Hr & [->| [v ->]]).
    + by eapply Forall_forall in Hret.
    + apply retained_set_geometry. by eapply Forall_forall in Hret.
  - intros r0 Hr0 Hna Hin. apply (Habs r0 Hr0 Hna).
    unfold index in *. apply list_elem_of_fmap in Hin as (r' & Hlab & Hr').
    destruct (Hstep r' Hr') as (r & Hr & Hcase).
    apply list_elem_of_fmap. exists r. split; [|done].
    rewrite Hlab. by destruct Hcase as [->| [v ->]].
Qed.

(** C4. For a table as read with distinct row labels: the records of the
    cleaned table, of the geolocated table and of the filtered table all
    have latitude, longitude and year that are not null, and the label of
    a row of the table as read that lacks latitude or longitude occurs in
    none of the three. *)
Theorem retained_records_not_null table cleaned :
  NoDup (index table) →
  preprocess table = Ok cleaned →
  downstream_ok table cleaned ∧
  ∀ pts geo, gdf cleaned pts = Ok geo →
    downstream_ok table (frame geo) ∧
    ∀ poly filtered, mbc_gdf geo poly = Ok filtered →
      downstream_ok table (frame filtered).
Proof.
  intros Hnd Hclean.
  pose proof (preprocess_downstream _ _ Hnd Hclean) as Hc.
  split; [done|]. intros pts geo Hgeo.
  assert (downstream_ok table (frame geo)) as Hg.
  { eapply downstream_ok_step; [exact Hc|]. intros r' Hr'.
    destruct (gdf_rows_elem _ _ _ _ Hgeo Hr') as (r & p & Hr & _ & ->). eauto. }
  split; [done|]. intros poly filtered Hf.
  eapply downstream_ok_step; [exact Hg|]. intros r' Hr'.
  apply mbc_gdf_Ok in Hf as (_ & _ & Hrows). rewrite Hrows in Hr'.
  apply list_elem_of_filter in Hr' as [_ Hr']. eauto.
Qed.

Lemma sample_preprocess_Ok : is_Ok (preprocess sample_table).
Proof. apply is_Ok_b_true. vm_compute. reflexivity. Qed.

Lemma retained_records_not_null_witness :
  ∃ cleaned, preprocess sample_table = Ok cleaned ∧ downstream_ok sample_table cleaned.
Proof.
  destruct sample_preprocess_Ok as [cleaned Hc]. exists cleaned. split; [exact Hc|].
  refine (proj1 (retained_records_not_null sample_table cleaned _ Hc)).
  apply (bool_decide_unpack _). vm_compute. reflexivity.
Defined.

(** ** Points *)

(** C5. The geometry list holds one point per row of the table, in row
    order, built from the pair (longitude, latitude): for numeric cells the
    point has x = longitude and y = latitude. The geolocated table holds
    the rows in the same order, each with its point in the column
    [geometry], and is tagged EPSG:4326. *)
Theorem geometry_lon_lat df pts geo :
  geometry df = Ok pts →
  gdf df pts = Ok geo →
  crs geo = "EPSG:4326" ∧
  length pts = length (rows df) ∧
  length (rows (frame geo)) = length (rows df) ∧
  ∀ i r, rows df !! i = Some r →
    ∃ p, pts !! i = Some p ∧
         Point_of (row_get "longitude" r, row_get "latitude" r) = Ok p ∧
         rows (frame geo) !! i = Some (set_cell "geometry" (Geom p) r) ∧
         ∀ x y, row_get "longitude" r = Float x → row_get "latitude" r = Float y →
                p = PointXY x y.
Proof.
  intros Hpts Hgeo.
  pose proof (gdf_Ok _ _ _ Hgeo) as (Hcrs & Hlen & _ & Hrows).
  split; [done|]. split; [done|]. split.
  { rewrite Hrows, length_zip_with, length_fmap. lia. }
  intros i r Hr.
  destruct (gdf_rows_lookup _ _ _ _ _ Hgeo Hr) as (p & Hp & Hrow).
  exists p. split; [done|].
  apply geometry_Ok in Hpts.
  pose proof (Forall2_lookup_lr _ _ _ _ _ _ Hpts Hr Hp) as HP. cbv beta in HP.
  split; [done|]. split; [done|].
  intros x y Hx Hy. rewrite Hx, Hy in HP. simpl in HP. by injection HP as <-.
Qed.

Lemma sample_geometry_Ok :
  is_Ok (cleaned ← preprocess sample_table; pts ← geometry cleaned;
         geo ← gdf cleaned pts; Ok (cleaned, pts, geo)).
Proof. apply is_Ok_b_true. vm_compute. reflexivity. Qed.

Lemma geometry_lon_lat_witness :
  ∃ cleaned pts geo,
    preprocess sample_table = Ok cleaned ∧ geometry cleaned = Ok pts ∧
    gdf cleaned pts = Ok geo ∧ crs geo = "EPSG:4326" ∧ length pts = length (rows cleaned).
Proof.
  destruct sample_geometry_Ok as [[[cleaned pts] geo] H].
  apply bind_Ok in H as (cleaned' & Hc & H). apply bind_Ok in H as (pts' & Hp & H).
  apply bind_Ok in H as (geo' & Hg & H). injection H as -> -> ->.
  exists cleaned, pts, geo.
  split; [exact Hc|]. split; [exact Hp|]. split; [exact Hg|].
  destruct (geometry_lon_lat cleaned pts geo Hp Hg) as (H1 & H2 & _).
  exact (conj H1 H2).
Defined.

(** ** A date that the parse rejects *)




(** ** The spatial filter *)

(** C2, as the code has it. A row of the geolocated table is in the
    filtered table exactly when its point (longitude, latitude) is in the
    interior of the polygon; a row that is absent has its point on the
    boundary or outside. *)
Theorem filtered_iff_interior df pts geo poly filtered :
  geometry df = Ok pts →
  gdf df pts = Ok geo →
  mbc_gdf geo poly = Ok filtered →
  ∀ i r, rows df !! i = Some r →
    ∃ p, Point_of (row_get "longitude" r, row_get "latitude" r) = Ok p ∧
         rows (frame geo) !! i = Some (set_cell "geometry" (Geom p) r) ∧
         (set_cell "geometry" (Geom p) r ∈ rows (frame filtered)
          ↔ locate p poly = INTERIOR) ∧
         (set_cell "geometry" (Geom p) r ∉ rows (frame filtered)
          ↔ locate p poly = BOUNDARY ∨ locate p poly = EXTERIOR).
Proof.
  intros Hpts Hgeo Hf i r Hr.
  destruct (gdf_rows_lookup _ _ _ _ _ Hgeo Hr) as (p & Hp & Hrow).
  apply geometry_Ok in Hpts.
  pose proof (Forall2_lookup_lr _ _ _ _ _ _ Hpts Hr Hp) as HP. cbv beta in HP.
  apply mbc_gdf_Ok in Hf as (_ & _ & Hrows).
  exists p. split; [exact HP|]. split; [exact Hrow|].
  assert (set_cell "geometry" (Geom p) r ∈ rows (frame filtered)
          ↔ locate p poly = INTERIOR) as Hiff.
  { rewrite Hrows, list_elem_of_filter. unfold row_within.
    rewrite row_get_set_cell_eq, within_locate. split; [by intros [? _]|].
    intros Hl. split; [done|]. apply list_elem_of_lookup. eauto. }
  split; [exact Hiff|]. rewrite Hiff.
  destruct (locate p poly); split; intros H; try done; try (by left); try (by right).
  by destruct H.
Qed.

Lemma sample_stages_first_row :
  (sample_stages ≫= λ '(cleaned, _, _, _), Ok (bool_decide (is_Some (rows cleaned !! 0%nat))))
  = Ok true.
Proof. vm_compute. reflexivity. Qed.

Lemma sample_filter_Ok :
  ∃ cleaned pts geo filtered r,
    preprocess sample_table = Ok cleaned ∧ geometry cleaned = Ok pts ∧
    gdf cleaned pts = Ok geo ∧ mbc_gdf geo (mkPolygon mbc_coords) = Ok filtered ∧
    rows cleaned !! 0%nat = Some r.
Proof.
  pose proof sample_stages_first_row as H. unfold sample_stages in H.
  apply bind_Ok in H as ([[[cleaned pts] geo] filtered] & H & Hrow).
  apply bind_Ok in H as (cleaned' & Hc & H). apply bind_Ok in H as (pts' & Hp & H).
  apply bind_Ok in H as (geo' & Hg & H). apply bind_Ok in H as (filtered' & Hf & H).
  injection H as -> -> -> ->.
  injection Hrow as Hrow. apply bool_decide_eq_true in Hrow as [r Hr].
  exists cleaned, pts, geo, filtered, r.
  split; [exact Hc|]. split; [exact Hp|]. split; [exact Hg|]. exact (conj Hf Hr).
Qed.

Lemma filtered_iff_interior_witness :
  ∃ cleaned pts geo filtered r p,
    geometry cleaned = Ok pts ∧ gdf cleaned pts = Ok geo ∧
    mbc_gdf geo (mkPolygon mbc_coords) = Ok filtered ∧
    rows cleaned !! 0%nat = Some r ∧
    rows (frame geo) !! 0%nat = Some (set_cell "geometry" (Geom p) r) ∧
    (set_cell "geometry" (Geom p) r ∈ rows (frame filtered)
     ↔ locate p (mkPolygon mbc_coords) = INTERIOR).
Proof.
  destruct sample_filter_Ok as (cleaned & pts & geo & filtered & r & Hc & Hp & Hg & Hf & Hr).
  destruct (filtered_iff_interior cleaned pts geo _ filtered Hp Hg Hf 0%nat r Hr)
    as (p & _ & H1 & H2 & _).
  exists cleaned, pts, geo, filtered, r, p.
  split; [exact Hp|]. split; [exact Hg|]. split; [exact Hf|]. split; [exact Hr|].
  exact (conj H1 H2).
Defined.

Lemma vertex_check_true : vertex_check = Ok true.
Proof. vm_compute. reflexivity. Qed.

Example inside_corridor :
  locate (PointXY (deg (-85.0)) (deg 10.0)) (mkPolygon mbc_coords) = INTERIOR.
Proof. vm_compute. reflexivity. Qed.

Example origin_outside_corridor :
  locate (PointXY (deg 0.0) (deg 0.0)) (mkPolygon mbc_coords) = EXTERIOR.
Proof. vm_compute. reflexivity. Qed.

Example sample_filtered_labels :
  (run sample_world ≫= get_geoframe "mbc_gdf") ≫= (λ g, Ok (index (frame g)))
  = Ok [0; 5; 6].
Proof. vm_compute. reflexivity. Qed.

Lemma vertex_on_boundary : locate vertex_point (mkPolygon mbc_coords) = BOUNDARY.
Proof. vm_compute. reflexivity. Qed.

(** C2, counterexample. The only row of [vertex_table] reaches the
    geolocated table with its point on a vertex of the ring; the row is
    absent from the filtered table although its point is on the boundary,
    not strictly outside. *)
Lemma boundary_row_absent_not_outside :
  ∃ cleaned pts geo filtered r p,
    preprocess vertex_table = Ok cleaned ∧ geometry cleaned = Ok pts ∧
    gdf cleaned pts = Ok geo ∧ mbc_gdf geo (mkPolygon mbc_coords) = Ok filtered ∧
    r ∈ rows (frame geo) ∧ row_get "geometry" r = Geom p ∧
    (r ∉ rows (frame filtered)) ∧
    locate p (mkPolygon mbc_coords) = BOUNDARY ∧
    locate p (mkPolygon mbc_coords) ≠ EXTERIOR.
Proof.
  pose proof vertex_check_true as H. unfold vertex_check in H.
  apply bind_Ok in H as (cleaned & Hc & H). apply bind_Ok in H as (pts & Hp & H).
  apply bind_Ok in H as (geo & Hg & H). apply bind_Ok in H as (filtered & Hf & H).
  injection H as H. apply bool_decide_eq_true in H as (Hlen & Hall & Hnil).
  destruct (rows (frame geo)) as [|r [|? ?]] eqn:Hrows; try discriminate Hlen.
  apply Forall_cons in Hall as [Hr _].
  exists cleaned, pts, geo, filtered, r, vertex_point.
  split; [exact Hc|]. split; [exact Hp|]. split; [exact Hg|]. split; [exact Hf|].
  split; [rewrite Hrows; apply list_elem_of_here|]. split; [exact Hr|].
  split; [rewrite Hnil; apply not_elem_of_nil|].
  rewrite vertex_on_boundary. split; [reflexivity|discriminate].
Qed.

(** ** Counts per year *)

#[local] Instance num_le_trans : Transitive num_le.
Proof. intros a b c. unfold num_le. apply Qcle_trans. Qed.

#[local] Instance num_le_total : Total num_le.
Proof. intros a b. unfold num_le. apply (total Qcle). Qed.

Lemma occurrences_pos k (s : Series) : k ∈ s → (0 < occurrences k s)%nat.
Proof.
  intros Hk. unfold occurrences.
  assert (k ∈ filter (λ v, v = k) s) as Hin by by apply list_elem_of_filter.
  destruct (filter _ s); [by apply elem_of_nil in Hin | simpl; lia].
Qed.

Lemma occurrences_fmap (f : Row → cell) k (l : list Row) :
  occurrences k (f <$> l) = length (filter (λ r, f r = k) l).
Proof.
  unfold occurrences. induction l as [|r l IH]; [done|].
  rewrite fmap_cons, (filter_cons (λ v : cell, v = k)), (filter_cons (λ r, f r = k)).
  destruct (decide (f r = k)); [cbn [length]; f_equal|]; exact IH.
Qed.

Lemma filter_notna_all (s : Series) :
  Forall (λ v, ∃ y, v = Int y) s → filter (λ v, notna v = true) s = s.
Proof.
  induction 1 as [|v s [y ->] _ IH]; [done|].
  rewrite filter_cons. simpl. by rewrite IH.
Qed.

(** The counts of a column of integers: a permutation of the distinct
    values with their numbers of occurrences. *)
Lemma value_counts_Permutation (s : Series) :
  Forall (λ v, ∃ y, v = Int y) s →
  value_counts s ≡ₚ (λ k, (k, occurrences k s)) <$> remove_dups s.
Proof.
  intros Hs. unfold value_counts. rewrite merge_sort_Permutation.
  by rewrite (filter_notna_all _ Hs).
Qed.

Lemma sort_index_numeric (vc : CountSeries) :
  Forall (λ kv, ∃ y, kv.1 = Int y) vc → sort_index vc = Ok (merge_sort num_le vc).
Proof.
  intros Hvc. unfold sort_index. destruct vc as [|[k0 n0] vc']; [done|].
  pose proof Hvc as Hall. apply Forall_cons in Hvc as [[y0 Hk0] _]. simpl in Hk0. subst k0.
  cbn [kind_of].
  assert (forallb (λ kv : cell * nat, bool_decide (kind_of kv.1 = Some numeric_keys))
            ((Int y0, n0) :: vc') = true) as ->; [|done].
  apply forallb_forall. intros kv Hkv. rewrite <- list_elem_of_In in Hkv.
  eapply Forall_forall in Hall as [y Hy]; [|exact Hkv].
  rewrite Hy. done.
Qed.

Lemma strictly_sorted_years (yc : CountSeries) :
  StronglySorted num_le yc → NoDup (yc.*1) → Forall (λ kv, ∃ y, kv.1 = Int y) yc →
  StronglySorted year_before yc.
Proof.
  induction 1 as [|a l Hl IH Ha]; intros Hnd Hint; [constructor|].
  rewrite fmap_cons in Hnd. apply NoDup_cons in Hnd as [Hnotin Hnd].
  apply Forall_cons in Hint as [[y1 Hy1] Hint].
  constructor; [by apply IH|].
  apply Forall_forall. intros b Hb.
  pose proof (proj1 (Forall_forall _ _) Ha b Hb) as Hle.
  pose proof (proj1 (Forall_forall _ _) Hint b Hb) as [y2 Hy2].
  exists y1, y2. split; [done|]. split; [done|].
  unfold num_le in Hle. rewrite Hy1, Hy2 in Hle. simpl in Hle.
  apply Z2Qc_inj_le in Hle.
  assert (y1 ≠ y2); [|lia]. intros ->. apply Hnotin.
  apply list_elem_of_fmap. exists b. split; [congruence|done].
Qed.

(** The counts of a table whose years are integers. *)
Lemma year_counts_numeric (g : GeoDataFrame) :
  "year" ∈ columns (frame g) →
  Forall (λ r, ∃ y, row_get "year" r = Int y) (rows (frame g)) →
  ∃ yc, year_counts g = Ok yc ∧
        Forall (year_entry g) yc ∧
        StronglySorted year_before yc ∧
        ∀ r, r ∈ rows (frame g) →
             ∃ y, row_get "year" r = Int y ∧ (Int y, rows_with_year y g) ∈ yc.
Proof.
  intros Hcol Hint. unfold year_counts, getitem.
  rewrite decide_True by done. cbn [mbind result_bind].
  set (s := row_get "year" <$> rows (frame g)).
  assert (Forall (λ v, ∃ y, v = Int y) s) as Hs.
  { unfold s. by apply Forall_fmap. }
  pose proof (value_counts_Permutation s Hs) as Hperm.
  assert (∀ kv, kv ∈ value_counts s ↔ kv.1 ∈ s ∧ kv.2 = occurrences kv.1 s) as Hmem.
  { intros [k n]. rewrite Hperm, list_elem_of_fmap. simpl. split.
    - intros (k' & [= -> ->] & Hk'). rewrite elem_of_remove_dups in Hk'. by split.
    - intros [Hk ->]. exists k. split; [done|]. by apply elem_of_remove_dups. }
  assert (Forall (λ kv, ∃ y, kv.1 = Int y) (value_counts s)) as Hkeys.
  { apply Forall_forall. intros kv Hkv. apply Hmem in Hkv as [Hk _].
    by eapply Forall_forall in Hs. }
  rewrite (sort_index_numeric _ Hkeys). eexists. split; [reflexivity|].
  assert (∀ y, occurrences (Int y) s = rows_with_year y g) as Hocc.
  { intros y. unfold s. apply occurrences_fmap. }
  split; [|split].
  - apply Forall_forall. intros kv Hkv.
    rewrite merge_sort_Permutation in Hkv. apply Hmem in Hkv as [Hk Hn].
    pose proof (proj1 (Forall_forall _ _) Hs _ Hk) as [y Hy].
    exists y. split; [done|]. rewrite Hn, Hy, <- Hocc. split; [done|].
    apply occurrences_pos. by rewrite <- Hy.
  - apply strictly_sorted_years.
    + apply StronglySorted_merge_sort; apply _.
    + rewrite merge_sort_Permutation, Hperm, <- list_fmap_compose.
      change (fst ∘ _) with (@id cell). rewrite list_fmap_id. apply NoDup_remove_dups.
    + rewrite merge_sort_Permutation. exact Hkeys.
  - intros r Hr. pose proof (proj1 (Forall_forall _ _) Hint r Hr) as [y Hy].
    exists y. split; [done|]. rewrite merge_sort_Permutation. apply Hmem. simpl.
    split; [|by rewrite Hocc]. rewrite <- Hy. by apply list_elem_of_fmap_2.
Qed.

(** ** The tables of a run *)

Lemma pipeline_tables table cleaned pts geo poly filtered :
  preprocess table = Ok cleaned →
  gdf cleaned pts = Ok geo →
  mbc_gdf geo poly = Ok filtered →
  columns (frame filtered) = cleaned_columns ++ ["geometry"] ∧
  Forall (λ r, ∃ y, row_get "year" r = Int y) (rows (frame filtered)) ∧
  Forall (λ r, ∃ p, row_get "geometry" r = Geom p) (rows (frame filtered)).
Proof.
  intros Hc Hg Hf.
  apply preprocess_Ok in Hc as [Hcols Hrows].
  pose proof (gdf_Ok _ _ _ Hg) as (_ & _ & Hgcols & _).
  apply mbc_gdf_Ok in Hf as (_ & Hfcols & Hfrows).
  split.
  { rewrite Hfcols, Hgcols, Hcols. rewrite decide_False; [done|]. solve_names. }
  assert (∀ r', r' ∈ rows (frame filtered) →
            ∃ r0 r p, cleaned_from r0 r ∧ r' = set_cell "geometry" (Geom p) r) as Hfrom.
  { intros r' Hr'. rewrite Hfrows in Hr'. apply list_elem_of_filter in Hr' as [_ Hr'].
    destruct (gdf_rows_elem _ _ _ _ Hg Hr') as (r & p & Hr & _ & ->).
    destruct (rows_from_elem _ _ _ _ Hrows Hr) as (r0 & _ & Hcf). eauto. }
  split; apply Forall_forall; intros r' Hr';
    destruct (Hfrom r' Hr') as (r0 & r & p & Hcf & ->).
  - destruct Hcf as (_ & t & _ & _ & _ & _ & _ & Hy & _).
    exists (year t). by rewrite row_get_set_cell_ne.
  - exists p. apply row_get_set_cell_eq.
Qed.

Ltac read_name H :=
  unfold get_frame, get_coords, get_polygon, get_points, get_geoframe in H;
  cbn [globals files bind_name] in H;
  rewrite ?lookup_insert_eq in H;
  repeat (rewrite lookup_insert_ne in H by done; rewrite ?lookup_insert_eq in H);
  injection H as <-.

(** A run that ends went through every stage. *)
Lemma run_Ok w st :
  run w = Ok st →
  ∃ table cleaned pts geo filtered yc,
    occurrence_txt w = Ok table ∧
    preprocess table = Ok cleaned ∧
    geometry cleaned = Ok pts ∧
    gdf cleaned pts = Ok geo ∧
    mbc_gdf geo (mkPolygon mbc_coords) = Ok filtered ∧
    year_counts filtered = Ok yc ∧
    globals st !! "df" = Some (VFrame cleaned) ∧
    globals st !! "gdf" = Some (VGeoFrame geo) ∧
    globals st !! "mbc_gdf" = Some (VGeoFrame filtered) ∧
    globals st !! "year_counts" = Some (VCounts yc) ∧
    files st = {[ export_path := export filtered ]}.
Proof.
  unfold run, script. cbn [exec]. intros H.
  apply bind_Ok in H as (st1 & H1 & H).
  apply bind_Ok in H1 as (table & Ht & [= <-]).
  apply bind_Ok in H as (st2 & H2 & H).
  apply bind_Ok in H2 as (d & Hd & H2). read_name Hd.
  apply bind_Ok in H2 as (cleaned & Hc & [= <-]).
  apply bind_Ok in H as (st3 & [= <-] & H).
  apply bind_Ok in H as (st4 & H4 & H).
  apply bind_Ok in H4 as (c & Hco & H4). read_name Hco.
  rewrite Polygon_of_mbc_coords in H4. cbn [mbind result_bind] in H4. injection H4 as <-.
  apply bind_Ok in H as (st5 & H5 & H).
  apply bind_Ok in H5 as (d & Hd & H5). read_name Hd.
  apply bind_Ok in H5 as (pts & Hp & [= <-]).
  apply bind_Ok in H as (st6 & H6 & H).
  apply bind_Ok in H6 as (d & Hd & H6). read_name Hd.
  apply bind_Ok in H6 as (pts' & Hp' & H6). read_name Hp'.
  apply bind_Ok in H6 as (geo & Hg & [= <-]).
  apply bind_Ok in H as (st7 & H7 & H).
  apply bind_Ok in H7 as (g & Hg' & H7). read_name Hg'.
  apply bind_Ok in H7 as (poly & Hpoly & H7). read_name Hpoly.
  apply bind_Ok in H7 as (filtered & Hf & [= <-]).
  apply bind_Ok in H as (st8 & H8 & H).
  apply bind_Ok in H8 as (? & _ & H8). apply bind_Ok in H8 as (? & _ & H8).
  apply bind_Ok in H8 as (? & _ & H8). apply bind_Ok in H8 as (? & _ & [= <-]).
  apply bind_Ok in H as (st9 & H9 & H).
  apply bind_Ok in H9 as (g & Hg' & H9). read_name Hg'.
  apply bind_Ok in H9 as (yc & Hyc & [= <-]).
  apply bind_Ok in H as (g & Hg' & [= <-]). read_name Hg'.
  exists table, cleaned, pts, geo, filtered, yc.
  cbn [globals files bind_name init].
  repeat (split; [first [eassumption | by simplify_map_eq]|]).
  by rewrite insert_empty.
Qed.

(** C7. The counts of a run are those of the filtered rows by year: every
    entry stands for a year with the number of filtered rows of that year,
    which is not zero; the entries are in strictly ascending order of year,
    so that no year has two entries; and the year of every filtered row has
    its entry. *)
Theorem year_counts_by_year table cleaned pts geo poly filtered :
  preprocess table = Ok cleaned →
  gdf cleaned pts = Ok geo →
  mbc_gdf geo poly = Ok filtered →
  ∃ yc, year_counts filtered = Ok yc ∧
        Forall (year_entry filtered) yc ∧
        StronglySorted year_before yc ∧
        ∀ r, r ∈ rows (frame filtered) →
             ∃ y, row_get "year" r = Int y ∧ (Int y, rows_with_year y filtered) ∈ yc.
Proof.
  intros Hc Hg Hf.
  destruct (pipeline_tables _ _ _ _ _ _ Hc Hg Hf) as (Hcols & Hyears & _).
  apply year_counts_numeric; [|exact Hyears].
  rewrite Hcols. solve_names.
Qed.

Lemma year_counts_by_year_witness :
  ∃ cleaned pts geo filtered yc,
    preprocess sample_table = Ok cleaned ∧ gdf cleaned pts = Ok geo ∧
    mbc_gdf geo (mkPolygon mbc_coords) = Ok filtered ∧
    year_counts filtered = Ok yc ∧ StronglySorted year_before yc.
Proof.
  destruct sample_filter_Ok as (cleaned & pts & geo & filtered & r & Hc & Hp & Hg & Hf & Hr).
  destruct (year_counts_by_year sample_table cleaned pts geo _ filtered Hc Hg Hf)
    as (yc & Hyc & _ & Hsorted & _).
  exists cleaned, pts, geo, filtered, yc.
  split; [exact Hc|]. split; [exact Hg|]. split; [exact Hf|]. exact (conj Hyc Hsorted).
Defined.

Example sample_year_counts :
  (run sample_world ≫= λ st, Ok (globals st !! "year_counts"))
  = Ok (Some (VCounts [(Int 1947, 2%nat); (Int 1999, 1%nat)])).
Proof. vm_compute. reflexivity. Qed.

(** ** The exported file *)

(** C8. A run that ends has written, at the export path, the filtered
    table as a comma-separated file: the header names the columns of the
    cleaned table followed by [geometry]; each record holds exactly the
    cells of these columns, the last one being the geometry of the row; no
    field holds the row label, which [index=True] would write under an
    unnamed first column. *)
Theorem export_csv w st :
  run w = Ok st →
  ∃ filtered,
    globals st !! "mbc_gdf" = Some (VGeoFrame filtered) ∧
    files st !! export_path = Some (export filtered) ∧
    sep (export filtered) = "," ∧
    header (export filtered) = cleaned_columns ++ ["geometry"] ∧
    records (export filtered)
    = (λ r, (λ c, row_get c r) <$> (cleaned_columns ++ ["geometry"]))
        <$> rows (frame filtered) ∧
    Forall (λ rec, length rec = length (header (export filtered)) ∧
                   ∃ p, last rec = Some (Geom p))
      (records (export filtered)) ∧
    header (to_csv (frame filtered) true) = EmptyString :: header (export filtered).
Proof.
  intros Hrun.
  apply run_Ok in Hrun
    as (table & cleaned & pts & geo & filtered & yc & _ & Hc & _ & Hg & Hf & _ & _ & _
        & Hm & _ & Hfiles).
  destruct (pipeline_tables _ _ _ _ _ _ Hc Hg Hf) as (Hcols & _ & Hgeom).
  exists filtered. split; [exact Hm|].
  split; [rewrite Hfiles; apply lookup_singleton_eq|].
  unfold export, to_csv. cbn [sep header records app]. rewrite Hcols.
  split; [reflexivity|]. split; [reflexivity|]. split; [reflexivity|].
  split; [|reflexivity].
  apply Forall_fmap. eapply Forall_impl; [exact Hgeom|].
  intros r [p Hp]. cbv beta. split; [by rewrite !length_fmap|].
  exists p. rewrite fmap_app.
  change ((λ c, row_get c r) <$> ["geometry"]) with [row_get "geometry" r].
  by rewrite last_snoc, Hp.
Qed.

Lemma export_csv_witness :
  ∃ st filtered,
    run sample_world = Ok st ∧
    files st !! export_path = Some (export filtered) ∧
    header (export filtered) = cleaned_columns ++ ["geometry"].
Proof.
  destruct sample_run_Ok as [st Hrun].
  destruct (export_csv sample_world st Hrun) as (filtered & _ & Hfile & _ & Hheader & _).
  exists st, filtered. split; [exact Hrun|]. exact (conj Hfile Hheader).
Defined.

(** * Further properties of the stages *)

(** ** Columns of the cleaned table *)



(** ** Years of the cleaned table *)

Lemma cleaned_from_dated r r' :
  date_as_read r → cleaned_from r r' → dated_in_century r'.
Proof.
  intros Hread (_ & t & _ & _ & Hdate & _ & _ & Hy & Hm & Hd & Hts & _).
  destruct Hread as [Hna | [s Hs]].
  { rewrite Hna in Hdate. discriminate Hdate. }
  rewrite Hs in Hdate. cbn [to_datetime_value] in Hdate.
  destruct (strptime_mdy s) as [t0|e] eqn:Hparse; [|discriminate Hdate].
  cbn [mbind result_bind] in Hdate.
  pose proof (strptime_mdy_Ok _ _ Hparse) as (Hv & Hrange & Hh & Hmi & Hse).
  destruct (decide (2026 ≤ year t0)) as [Hge|Hlt].
  - rewrite correct_future_dates_future in Hdate by (done || lia).
    injection Hdate as <-. cbn [year month day] in *.
    exists (year t0 - 100), (month t0), (day t0).
    split; [lia|]. split; [apply valid_date_century; [by apply valid_valid_date|lia]|].
    rewrite Hts. cbn [hour minute second]. by rewrite Hh, Hmi, Hse.
  - rewrite correct_future_dates_past in Hdate by lia. injection Hdate as <-.
    exists (year t0), (month t0), (day t0).
    split; [lia|]. split; [by apply valid_valid_date|].
    rewrite Hts. destruct t0; simpl in *. by subst.
Qed.

(** X2. When the date column of the table as read holds texts and nulls,
    every record of the cleaned table has the year, month and day of one
    calendar day whose year lies in 1926..2025, and its system:time_start is
    the ISO text of that day at 00:00:00. *)
Theorem cleaned_years_in_century table cleaned :
  Forall date_as_read (rows table) →
  preprocess table = Ok cleaned →
  Forall dated_in_century (rows cleaned).
Proof.
  intros Hread H. apply preprocess_Ok in H as [_ Hrows].
  apply Forall_forall. intros r' Hr'.
  destruct (rows_from_elem _ _ _ _ Hrows Hr') as (r & Hr & Hcf).
  eapply cleaned_from_dated; [|exact Hcf].
  by eapply Forall_forall in Hread.
Qed.

Lemma sample_date_as_read : Forall date_as_read (rows sample_table).
Proof.
  unfold sample_table. cbn [rows].
  repeat (apply Forall_cons_2;
          [first [ left; vm_compute; reflexivity
                 | right; eexists; vm_compute; reflexivity ]|]).
  apply Forall_nil_2.
Qed.

Lemma cleaned_years_in_century_witness :
  ∃ cleaned, preprocess sample_table = Ok cleaned ∧ Forall dated_in_century (rows cleaned).
Proof.
  destruct sample_preprocess_Ok as [cleaned Hc]. exists cleaned.
  exact (conj Hc (cleaned_years_in_century sample_table cleaned sample_date_as_read Hc)).
Defined.

(** ** Required columns *)

Lemma rename_columns_other c d :
  c ∉ ["latitude"; "longitude"] → c ∈ columns (rename script_mapper d) → c ∈ columns d.
Proof.
  intros Hc. unfold rename, script_mapper. cbn [columns foldl fst snd].
  rewrite <- list_fmap_compose. intros Hin.
  apply list_elem_of_fmap in Hin as (c0 & -> & Hc0).
  cbn [compose] in *. unfold rename_name in *.
  repeat case_decide; subst; try done; exfalso; apply Hc; solve_names.
Qed.

Lemma setitem_columns_other (c dst : string) (cols : list string) :
  c ≠ dst → c ∈ (if decide (dst ∈ cols) then cols else cols ++ [dst]) → c ∈ cols.
Proof.
  intros Hne. case_decide; [done|]. intros Hc.
  apply elem_of_app in Hc as [Hc|Hc]; [done|].
  by apply list_elem_of_singleton in Hc.
Qed.

(** X3. The cleaning stage returns only on a table that has the columns
    decimalLatitude, decimalLongitude, date, type, basisOfRecord, gbifID and
    occurrenceID: without one of them it raises. *)
Theorem preprocess_requires_columns df df' :
  preprocess df = Ok df' → ∀ c, c ∈ required_columns → c ∈ columns df.
Proof.
  unfold preprocess. intros H.
  apply bind_Ok in H as (d1 & H1 & H). cbv zeta in H.
  apply bind_Ok in H as (d3 & H3 & H).
  apply bind_Ok in H as (d4 & H4 & H).
  apply bind_Ok in H as (d5 & H5 & H).
  apply bind_Ok in H as (d6 & H6 & H).
  apply bind_Ok in H as (d7 & H7 & H).
  apply bind_Ok in H as (d8 & H8 & H).
  apply bind_Ok in H as (d9 & H9 & H).
  apply bind_Ok in H as (d10 & H10 & _).
  apply dropna_Ok in H1 as (S1 & C1 & _).
  apply assign_mapM_Ok in H3 as (S3 & C3 & _).
  apply assign_mapM_Ok in H4 as (_ & C4 & _).
  apply assign_mapM_Ok in H5 as (_ & C5 & _).
  apply assign_mapM_Ok in H6 as (_ & C6 & _).
  apply assign_mapM_Ok in H7 as (_ & C7 & _).
  apply assign_pure_Ok in H8 as (_ & C8 & _).
  apply dropna_Ok in H9 as (_ & C9 & _).
  apply select_Ok in H10 as (S10 & _ & _).
  assert (∀ c, c ∈ cols_to_keep → c ∉ ["year"; "month"; "day"] →
               c ∈ columns (rename script_mapper d1)) as Hkeep.
  { intros c Hc Hn. apply S10 in Hc.
    assert (c ≠ "year" ∧ c ≠ "month" ∧ c ≠ "day") as (Hy & Hm & Hd).
    { repeat split; intros ->; apply Hn; solve_names. }
    rewrite C9, C8 in Hc. apply setitem_columns_other in Hc; [|done].
    rewrite C7 in Hc. apply setitem_columns_other in Hc; [|done].
    rewrite C6 in Hc. apply setitem_columns_other in Hc; [|done].
    rewrite C5 in Hc. apply setitem_columns_other in Hc; [|done].
    destruct (decide (c = "date")) as [->|Hdate]; [exact S3|].
    rewrite C4 in Hc. apply setitem_columns_other in Hc; [|done].
    rewrite C3 in Hc. by apply setitem_columns_other in Hc. }
  intros c Hc. rewrite <- C1. unfold required_columns in Hc.
  repeat (apply elem_of_cons in Hc as [->|Hc]); try (by apply elem_of_nil in Hc).
  - rewrite C1. apply S1. solve_names.
  - rewrite C1. apply S1. solve_names.
  - apply rename_columns_other; [solve_names|]. apply Hkeep; solve_names.
  - apply rename_columns_other; [solve_names|]. apply Hkeep; solve_names.
  - apply rename_columns_other; [solve_names|]. apply Hkeep; solve_names.
  - apply rename_columns_other; [solve_names|]. apply Hkeep; solve_names.
  - apply rename_columns_other; [solve_names|]. apply Hkeep; solve_names.
Qed.

Lemma preprocess_requires_columns_witness :
  ∃ cleaned, preprocess sample_table = Ok cleaned ∧ "gbifID" ∈ columns sample_table.
Proof.
  destruct sample_preprocess_Ok as [cleaned Hc]. exists cleaned. split; [exact Hc|].
  apply (preprocess_requires_columns sample_table cleaned Hc). solve_names.
Defined.

Lemma preprocess_without_latitude df :
  "decimalLatitude" ∉ columns df → preprocess df = Raise (KeyError "decimalLatitude").
Proof.
  intros Hn. unfold preprocess, dropna, missing_column.
  rewrite filter_cons. rewrite decide_True by done. done.
Qed.

(** X4. The cleaning stage cannot be applied to its own result: the
    cleaned table has no column decimalLatitude, and cleaning it again
    raises [KeyError] for that column. *)
Theorem preprocess_twice_raises df df' :
  preprocess df = Ok df' → preprocess df' = Raise (KeyError "decimalLatitude").
Proof.
  intros H. apply preprocess_without_latitude.
  apply preprocess_Ok in H as [-> _]. solve_names.
Qed.

Lemma preprocess_twice_raises_witness :
  ∃ cleaned, preprocess sample_table = Ok cleaned ∧
             preprocess cleaned = Raise (KeyError "decimalLatitude").
Proof.
  destruct sample_preprocess_Ok as [cleaned Hc]. exists cleaned.
  exact (conj Hc (preprocess_twice_raises sample_table cleaned Hc)).
Defined.

(** ** Labels and order *)

Lemma Forall2_label_index (R : Row → Row → Prop) (k l : list Row) :
  (∀ a b, R a b → label b = label a) → Forall2 R k l → label <$> l = label <$> k.
Proof.
  intros HR. induction 1 as [|a b k l Hab _ IH]; [done|].
  rewrite !fmap_cons. f_equal; [by apply HR | exact IH].
Qed.

Lemma gdf_index df pts geo : gdf df pts = Ok geo → index (frame geo) = index df.
Proof.
  intros H. apply gdf_Ok in H as (_ & Hlen & _ & Hrows).
  unfold index. rewrite Hrows. rewrite <- (length_fmap Geom) in Hlen.
  revert Hlen. generalize (Geom <$> pts). generalize (rows df).
  induction l as [|r l IH]; intros [|v vs] Hlen; try done.
  cbn [zip_with]. rewrite !fmap_cons. f_equal. apply IH. simpl in Hlen. lia.
Qed.

(** X5. Row labels are never renumbered and rows are never reordered: the
    labels of the cleaned table are a sublist of those of the table as
    read, the geolocated table has the labels of the cleaned table, and the
    labels of the filtered table are a sublist of those. *)
Theorem labels_kept_in_order table cleaned pts geo poly filtered :
  preprocess table = Ok cleaned →
  gdf cleaned pts = Ok geo →
  mbc_gdf geo poly = Ok filtered →
  index cleaned `sublist_of` index table ∧
  index (frame geo) = index cleaned ∧
  index (frame filtered) `sublist_of` index (frame geo).
Proof.
  intros Hc Hg Hf. split; [|split].
  - apply preprocess_Ok in Hc as [_ (k & Hk & HF)]. unfold index.
    rewrite (Forall2_label_index _ _ _ (λ a b (H : cleaned_from a b), proj1 H) HF).
    by apply fmap_sublist.
  - by eapply gdf_index.
  - apply mbc_gdf_Ok in Hf as (_ & _ & Hrows). unfold index. rewrite Hrows.
    apply fmap_sublist, sublist_filter.
Qed.

Lemma labels_kept_in_order_witness :
  ∃ cleaned pts geo filtered,
    preprocess sample_table = Ok cleaned ∧ gdf cleaned pts = Ok geo ∧
    mbc_gdf geo (mkPolygon mbc_coords) = Ok filtered ∧
    index cleaned `sublist_of` index sample_table ∧
    index (frame filtered) `sublist_of` index (frame geo).
Proof.
  destruct sample_filter_Ok as (cleaned & pts & geo & filtered & r & Hc & Hp & Hg & Hf & Hr).
  destruct (labels_kept_in_order sample_table cleaned pts geo _ filtered Hc Hg Hf)
    as (H1 & _ & H3).
  exists cleaned, pts, geo, filtered.
  split; [exact Hc|]. split; [exact Hg|]. split; [exact Hf|]. exact (conj H1 H3).
Defined.

(** X6. The filter neither changes nor adds anything: the filtered table
    has the reference system EPSG:4326 and the columns of the geolocated
    table, and its rows are rows of the geolocated table, unchanged and in
    their order. *)
Theorem filtered_is_sublist cleaned pts geo poly filtered :
  gdf cleaned pts = Ok geo →
  mbc_gdf geo poly = Ok filtered →
  crs filtered = "EPSG:4326" ∧
  columns (frame filtered) = columns (frame geo) ∧
  rows (frame filtered) `sublist_of` rows (frame geo).
Proof.
  intros Hg Hf. apply gdf_Ok in Hg as (Hcrs & _).
  apply mbc_gdf_Ok in Hf as (Hcrs' & Hcols & Hrows).
  split; [congruence|]. split; [done|]. rewrite Hrows. apply sublist_filter.
Qed.

Lemma filtered_is_sublist_witness :
  ∃ cleaned pts geo filtered,
    gdf cleaned pts = Ok geo ∧ mbc_gdf geo (mkPolygon mbc_coords) = Ok filtered ∧
    crs filtered = "EPSG:4326" ∧ rows (frame filtered) `sublist_of` rows (frame geo).
Proof.
  destruct sample_filter_Ok as (cleaned & pts & geo & filtered & r & Hc & Hp & Hg & Hf & Hr).
  destruct (filtered_is_sublist cleaned pts geo _ filtered Hg Hf) as (H1 & _ & H3).
  exists cleaned, pts, geo, filtered.
  split; [exact Hg|]. split; [exact Hf|]. exact (conj H1 H3).
Defined.

(** ** The correction on every timestamp *)

(** X7. On a calendar-valid timestamp with year below 2400 the century
    correction returns a date and does not raise. The bound is the first
    leap day whose year minus 100 is no leap year: on 2400-02-29 the call
    [replace(year=2300)] raises [ValueError]. *)
Theorem correct_future_dates_returns t :
  valid t = true → year t < 2400 →
  (∃ t', correct_future_dates (Datetime t) = Ok (Datetime t') ∧
         month t' = month t ∧ day t' = day t ∧
         (year t' = year t ∨ year t' = year t - 100))
  ∧ raises (correct_future_dates (Datetime (mkTimestamp 2400 2 29 0 0 0))).
Proof.
  intros Hv Hy. split; [|eexists; reflexivity].
  destruct (decide (2026 ≤ year t)) as [Hge|Hlt].
  - eexists. split; [apply correct_future_dates_future; [done|lia]|].
    cbn [month day year]. auto.
  - exists t. split; [apply correct_future_dates_past; lia|]. auto.
Qed.

Lemma correct_future_dates_returns_witness :
  ∃ t', correct_future_dates (Datetime (mkTimestamp 2262 4 11 0 0 0)) = Ok (Datetime t') ∧
        year t' = 2162.
Proof.
  destruct (correct_future_dates_returns (mkTimestamp 2262 4 11 0 0 0)) as [(t' & H & _ & _ & Hy) _].
  - reflexivity.
  - simpl. lia.
  - exists t'. split; [exact H|].
    assert (correct_future_dates (Datetime (mkTimestamp 2262 4 11 0 0 0))
            = Ok (Datetime (mkTimestamp 2162 4 11 0 0 0))) as H' by reflexivity.
    rewrite H' in H. by injection H as <-.
Defined.

(** ** Files and failures of a run *)

Ltac writes_nothing_by_binding :=
  let st := fresh "st" in let st' := fresh "st'" in let H := fresh "H" in
  intros st st' H;
  repeat (apply bind_Ok in H as (? & _ & H));
  injection H as <-; reflexivity.

Lemma writes_nothing_before_map (w : World) :
  Forall writes_nothing
    [stmt_read w; stmt_preprocess; stmt_mbc_coords; stmt_mbc_polygon; stmt_geometry;
     stmt_gdf; stmt_mbc_gdf].
Proof. repeat apply Forall_cons_2; try apply Forall_nil_2; writes_nothing_by_binding. Qed.

Lemma exec_writes_nothing stmts st st' :
  Forall writes_nothing stmts → exec stmts st = Ok st' → files st' = files st.
Proof.
  intros Hall. revert st. induction Hall as [|s l Hs _ IH]; intros st; cbn [exec].
  - by intros [= ->].
  - intros H. apply bind_Ok in H as (st1 & H1 & H2).
    rewrite (IH _ H2). by apply Hs.
Qed.

Lemma script_split_at_map (w : World) :
  script w
  = [stmt_read w; stmt_preprocess; stmt_mbc_coords; stmt_mbc_polygon; stmt_geometry;
     stmt_gdf; stmt_mbc_gdf] ++ [stmt_map w; stmt_year_counts; stmt_export].
Proof. reflexivity. Qed.

(** X8. The export comes after the map, so a failed download of the
    country boundaries ends the run before anything is exported: the run
    raises, and no state reached on the way holds a written file. *)
Theorem no_export_without_boundaries w e :
  countries_zip w = Raise e →
  raises (run w) ∧
  ∀ n st, exec (take n (script w)) init = Ok st → files st = ∅.
Proof.
  intros Hzip.
  assert (∀ st, stmt_map w st = Raise e) as Hmap.
  { intros st. unfold stmt_map. by rewrite Hzip. }
  split.
  - unfold run. rewrite script_split_at_map, exec_app.
    destruct (exec _ init) as [st7|e7]; [|by exists e7].
    exists e. cbn [mbind result_bind exec]. by rewrite Hmap.
  - intros n st. rewrite script_split_at_map.
    destruct (decide (n ≤ 7)%nat) as [Hle|Hgt].
    + rewrite take_app_le by done. intros H.
      apply exec_writes_nothing in H; [exact H|].
      apply Forall_take, writes_nothing_before_map.
    + rewrite take_app_ge by (simpl; lia). rewrite exec_app.
      destruct (exec _ init) as [st7|e7]; [|done].
      cbn [mbind result_bind length].
      destruct (n - 7)%nat as [|k] eqn:Hk; [lia|].
      cbn [take exec]. by rewrite Hmap.
Qed.

Lemma no_export_without_boundaries_witness :
  raises (run offline_world) ∧
  ∀ n st, exec (take n (script offline_world)) init = Ok st → files st = ∅.
Proof. exact (no_export_without_boundaries offline_world _ eq_refl). Defined.



(** ** The counts add up *)

Lemma occurrences_cons x k (s : list cell) :
  occurrences k (x :: s) = ((if decide (x = k) then 1 else 0) + occurrences k s)%nat.
Proof.
  unfold occurrences. rewrite (filter_cons (λ v : cell, v = k)).
  by destruct (decide (x = k)).
Qed.

Lemma occurrences_absent k (s : list cell) : k ∉ s → occurrences k s = 0%nat.
Proof.
  intros Hk. unfold occurrences.
  destruct (filter (λ v : cell, v = k) s) as [|v l] eqn:E; [done|].
  assert (v ∈ filter (λ v : cell, v = k) s) as Hv by (rewrite E; left).
  apply list_elem_of_filter in Hv as [-> Hv]. done.
Qed.

Lemma sum_occurrences_cons x (s l : list cell) :
  NoDup l →
  sum_list_with (λ k, occurrences k (x :: s)) l
  = (sum_list_with (λ k, occurrences k s) l + (if decide (x ∈ l) then 1 else 0))%nat.
Proof.
  induction 1 as [|k l Hk Hnd IH]; [done|].
  cbn [sum_list_with]. rewrite IH, occurrences_cons.
  destruct (decide (x = k)) as [->|Hne].
  - rewrite (decide_True (P := k ∈ k :: l)) by left.
    rewrite (decide_False (P := k ∈ l)) by done. lia.
  - destruct (decide (x ∈ l)) as [Hin|Hnin].
    + rewrite (decide_True (P := x ∈ k :: l)) by by right. lia.
    + rewrite (decide_False (P := x ∈ k :: l)); [lia|].
      intros Hin. apply elem_of_cons in Hin as [?|?]; done.
Qed.

Lemma sum_occurrences_remove_dups (s : list cell) :
  sum_list_with (λ k, occurrences k s) (remove_dups s) = length s.
Proof.
  induction s as [|x s IH]; [done|].
  cbn [remove_dups]. destruct (decide_rel elem_of x s) as [Hin|Hnin].
  - rewrite sum_occurrences_cons by apply NoDup_remove_dups.
    rewrite IH. rewrite decide_True by by apply elem_of_remove_dups. simpl. lia.
  - cbn [sum_list_with]. rewrite sum_occurrences_cons by apply NoDup_remove_dups.
    rewrite IH, occurrences_cons, decide_True by done.
    rewrite (occurrences_absent _ _ Hnin).
    rewrite decide_False; [simpl; lia|]. by rewrite elem_of_remove_dups.
Qed.

Lemma sum_list_with_fmap_compose {A B} (f : B → nat) (g : A → B) (l : list A) :
  sum_list_with f (g <$> l) = sum_list_with (λ a, f (g a)) l.
Proof. induction l as [|a l IH]; [done|]. rewrite fmap_cons. cbn [sum_list_with]. by rewrite IH. Qed.

(** X10. The counts per year add up to the number of rows of the filtered
    table: every filtered row is counted, once. *)
Theorem year_counts_total table cleaned pts geo poly filtered yc :
  preprocess table = Ok cleaned →
  gdf cleaned pts = Ok geo →
  mbc_gdf geo poly = Ok filtered →
  year_counts filtered = Ok yc →
  sum_list_with snd yc = length (rows (frame filtered)).
Proof.
  intros Hc Hg Hf Hyc.
  destruct (pipeline_tables _ _ _ _ _ _ Hc Hg Hf) as (Hcols & Hyears & _).
  unfold year_counts, getitem in Hyc.
  rewrite decide_True in Hyc by (rewrite Hcols; solve_names).
  cbn [mbind result_bind] in Hyc.
  set (s := row_get "year" <$> rows (frame filtered)) in *.
  assert (Forall (λ v, ∃ y, v = Int y) s) as Hs by (unfold s; by apply Forall_fmap).
  pose proof (value_counts_Permutation s Hs) as Hperm.
  rewrite sort_index_numeric in Hyc.
  - injection Hyc as <-. rewrite merge_sort_Permutation, Hperm.
    rewrite sum_list_with_fmap_compose. cbn [snd].
    rewrite sum_occurrences_remove_dups. unfold s. by rewrite length_fmap.
  - rewrite Hperm. apply Forall_fmap, Forall_forall. intros k Hk. cbn [fst compose].
    rewrite elem_of_remove_dups in Hk. exact (proj1 (Forall_forall _ _) Hs k Hk).
Qed.

Lemma year_counts_total_witness :
  ∃ cleaned pts geo filtered yc,
    preprocess sample_table = Ok cleaned ∧ gdf cleaned pts = Ok geo ∧
    mbc_gdf geo (mkPolygon mbc_coords) = Ok filtered ∧
    year_counts filtered = Ok yc ∧
    sum_list_with snd yc = length (rows (frame filtered)).
Proof.
  destruct sample_filter_Ok as (cleaned & pts & geo & filtered & r & Hc & Hp & Hg & Hf & Hr).
  destruct (year_counts_numeric filtered) as (yc & Hyc & _).
  - destruct (pipeline_tables _ _ _ _ _ _ Hc Hg Hf) as (Hcols & _). rewrite Hcols. solve_names.
  - by destruct (pipeline_tables _ _ _ _ _ _ Hc Hg Hf) as (_ & Hyears & _).
  - exists cleaned, pts, geo, filtered, yc.
    split; [exact Hc|]. split; [exact Hg|]. split; [exact Hf|]. split; [exact Hyc|].
    exact (year_counts_total sample_table cleaned pts geo _ filtered yc Hc Hg Hf Hyc).
Defined.

(** ** The rows the cleaning keeps *)





Lemma correct_future_dates_Datetime t v :
  correct_future_dates (Datetime t) = Ok v → ∃ t', v = Datetime t'.
Proof.
  unfold correct_future_dates. cbn [notna isna negb attr_year mbind result_bind].
  destruct (2026 <=? year t); [|intros [= <-]; by eexists].
  unfold replace, replace_year. destruct (valid_date _ _ _); [|done].
  cbn [fmap result_fmap]. intros [= <-]. by eexists.
Qed.






(** ** When the cleaning stage returns *)

Lemma missing_column_None_2 names df :
  (∀ c, c ∈ names → c ∈ columns df) → missing_column names df = None.
Proof.
  intros H. unfold missing_column.
  destruct (filter (λ c, c ∉ columns df) names) as [|c l] eqn:E; [done|].
  assert (c ∈ filter (λ c, c ∉ columns df) names) as Hc by (rewrite E; left).
  apply list_elem_of_filter in Hc as [Hn Hc]. by apply H in Hc.
Qed.

Lemma dropna_returns subset df :
  (∀ c, c ∈ subset → c ∈ columns df) →
  dropna subset df = Ok (mkDataFrame (columns df) (filter (all_notna subset) (rows df))).
Proof. intros H. unfold dropna. by rewrite missing_column_None_2. Qed.

Lemma select_returns names df :
  (∀ c, c ∈ names → c ∈ columns df) →
  select names df = Ok (mkDataFrame names (keep_cells names <$> rows df)).
Proof. intros H. unfold select. by rewrite missing_column_None_2. Qed.

Lemma drop_returns names df :
  (∀ c, c ∈ names → c ∈ columns df) → is_Ok (drop names df).
Proof. intros H. unfold drop. rewrite missing_column_None_2 by done. by eexists. Qed.

Lemma mapM_returns {A B} (f : A → result B) (l : list A) :
  Forall (λ x, is_Ok (f x)) l → is_Ok (mapM f l).
Proof.
  induction 1 as [|x l [y Hy] _ [k Hk]]; cbn [mapM].
  - by eexists.
  - rewrite Hy. cbn [mbind result_bind]. rewrite Hk. by eexists.
Qed.

Lemma assign_mapM_returns dst src (f : cell → result cell) df :
  src ∈ columns df →
  Forall (λ r, is_Ok (f (row_get src r))) (rows df) →
  is_Ok (assign dst src (mapM f) df).
Proof.
  intros Hsrc Hall. unfold assign, getitem. rewrite decide_True by done.
  cbn [mbind result_bind].
  destruct (mapM_returns f (row_get src <$> rows df)) as [vs Hvs].
  { by apply Forall_fmap. }
  rewrite Hvs. cbn [mbind result_bind]. unfold setitem.
  rewrite decide_True; [by eexists|].
  apply mapM_Ok_1, Forall2_length in Hvs. by rewrite length_fmap in Hvs.
Qed.

Lemma assign_pure_returns dst src (g : cell → cell) df :
  src ∈ columns df → is_Ok (assign dst src (λ s, Ok (g <$> s)) df).
Proof.
  intros Hsrc. unfold assign, getitem. rewrite decide_True by done.
  cbn [mbind result_bind]. unfold setitem.
  rewrite decide_True; [by eexists|]. by rewrite !length_fmap.
Qed.

Lemma Forall2_Forall_transfer {A B} (R : A → B → Prop) (P : A → Prop) (Q : B → Prop) l l' :
  (∀ a b, R a b → P a → Q b) → Forall2 R l l' → Forall P l → Forall Q l'.
Proof.
  intros HPQ. induction 1 as [|a b l l' Hab _ IH]; intros HP; [constructor|].
  apply Forall_cons in HP as [Ha HP]. constructor; [by eapply HPQ | by apply IH].
Qed.

Lemma setitem_columns_in (c dst : string) (cols : list string) :
  c ∈ cols ∨ c = dst → c ∈ (if decide (dst ∈ cols) then cols else cols ++ [dst]).
Proof.
  intros [Hc| ->]; case_decide; try done; apply elem_of_app; [by left|right; left].
Qed.

Lemma rename_columns_in c d :
  c ∈ columns d → c ∉ ["decimalLatitude"; "decimalLongitude"] →
  c ∈ columns (rename script_mapper d).
Proof.
  intros Hc Hn. unfold rename, script_mapper. cbn [columns foldl fst snd].
  rewrite <- list_fmap_compose. apply list_elem_of_fmap. exists c. split; [|done].
  cbn [compose]. unfold rename_name.
  rewrite (decide_False (P := c = "decimalLatitude")) by (intros ->; apply Hn; solve_names).
  rewrite (decide_False (P := c = "decimalLongitude")) by (intros ->; apply Hn; solve_names).
  done.
Qed.

Lemma rename_columns_new d :
  "decimalLatitude" ∈ columns d → "decimalLongitude" ∈ columns d →
  "latitude" ∈ columns (rename script_mapper d) ∧
  "longitude" ∈ columns (rename script_mapper d).
Proof.
  intros Hlat Hlon. unfold rename, script_mapper. cbn [columns foldl fst snd].
  rewrite <- list_fmap_compose. split; apply list_elem_of_fmap.
  - by exists "decimalLatitude".
  - by exists "decimalLongitude".
Qed.

Lemma date_cell_ok_set c v r : c ≠ "date" → date_cell_ok r → date_cell_ok (set_cell c v r).
Proof. intros Hc. unfold date_cell_ok. by rewrite row_get_set_cell_ne. Qed.

Lemma dt_value_returns field r : date_cell_ok r → is_Ok (dt_value field (row_get "date" r)).
Proof. intros [-> | [t ->]]; by eexists. Qed.

Lemma strftime_value_returns r : date_cell_ok r → is_Ok (strftime_value (row_get "date" r)).
Proof. intros [-> | [t ->]]; by eexists. Qed.

Lemma preprocess_is_Ok df :
  (∀ c, c ∈ required_columns → c ∈ columns df) →
  Forall (λ r, all_notna ["decimalLatitude"; "decimalLongitude"] r → date_parses r) (rows df) →
  is_Ok (preprocess df).
Proof.
  intros Hcols Hrows. unfold preprocess.
  rewrite dropna_returns.
  2:{ intros c Hc. apply Hcols.
      repeat (apply elem_of_cons in Hc as [->|Hc]);
        [solve_names..|by apply elem_of_nil in Hc]. }
  cbn [mbind result_bind]. cbv zeta.
  set (d1 := mkDataFrame (columns df) _).
  set (d2 := rename script_mapper d1).
  assert (∀ c, c ∈ ["date"; "type"; "basisOfRecord"; "gbifID"; "occurrenceID"] →
               c ∈ columns d2) as Hkeep2.
  { intros c Hc. apply rename_columns_in.
    - apply Hcols. repeat (apply elem_of_cons in Hc as [->|Hc]);
        [solve_names..|by apply elem_of_nil in Hc].
    - repeat (apply elem_of_cons in Hc as [->|Hc]);
        [solve_names..|by apply elem_of_nil in Hc]. }
  destruct (rename_columns_new d1) as [Hlat2 Hlon2];
    [apply Hcols; solve_names | apply Hcols; solve_names |].
  assert (Forall date_parses (rows d2)) as P2.
  { unfold d2, d1. cbn [rename rows]. apply Forall_fmap, Forall_forall. intros r Hr.
    apply list_elem_of_filter in Hr as [Hk Hr].
    pose proof (proj1 (Forall_forall _ _) Hrows r Hr Hk) as Hp.
    unfold date_parses, compose. by rewrite (rename_cells_other "date") by solve_names. }
  (* line 21 *)
  destruct (assign_mapM_returns "date" "date" (to_datetime_value errors_raise) d2) as [d3 H3].
  { apply Hkeep2. solve_names. }
  { eapply Forall_impl; [exact P2|]. intros r [-> | (s & t & -> & Hs)]; [by eexists|].
    cbn [to_datetime_value]. rewrite Hs. by eexists. }
  change (assign "date" "date" (λ s, to_datetime s errors_raise) d2)
    with (assign "date" "date" (mapM (to_datetime_value errors_raise)) d2).
  rewrite H3. cbn [mbind result_bind].
  apply assign_mapM_Ok in H3 as (_ & C3 & R3).
  assert (Forall (λ r, row_get "date" r = NA ∨
                       ∃ t, row_get "date" r = Datetime t ∧ valid t = true ∧ year t < 2400)
            (rows d3)) as P3.
  { eapply Forall2_Forall_transfer; [|exact R3|exact P2].
    intros r r' (v & Hv & ->) [Hna | (s & t & Hs & Hparse)]; rewrite row_get_set_cell_eq.
    - rewrite Hna in Hv. injection Hv as <-. by left.
    - rewrite Hs in Hv. cbn [to_datetime_value] in Hv. rewrite Hparse in Hv.
      injection Hv as <-. right. exists t. split; [done|].
      apply strptime_mdy_Ok in Hparse as (? & ? & _). split; [done|lia]. }
  (* line 32 *)
  destruct (assign_mapM_returns "date" "date" correct_future_dates d3) as [d4 H4].
  { rewrite C3. apply setitem_columns_in. by right. }
  { eapply Forall_impl; [exact P3|]. intros r [-> | (t & -> & Hv & Hy)]; [by eexists|].
    destruct (decide (2026 ≤ year t)).
    - rewrite correct_future_dates_future by (done || lia). by eexists.
    - rewrite correct_future_dates_past by lia. by eexists. }
  change (assign "date" "date" (apply correct_future_dates) d3)
    with (assign "date" "date" (mapM correct_future_dates) d3).
  rewrite H4. cbn [mbind result_bind].
  apply assign_mapM_Ok in H4 as (S4 & C4 & R4).
  assert (Forall date_cell_ok (rows d4)) as P4.
  { eapply Forall2_Forall_transfer; [|exact R4|exact P3].
    intros r r' (v & Hv & ->) Hr. unfold date_cell_ok. rewrite row_get_set_cell_eq.
    destruct Hr as [Hna | (t & Ht & _)].
    - rewrite Hna in Hv. injection Hv as <-. by left.
    - rewrite Ht in Hv. right. by eapply correct_future_dates_Datetime. }
  assert ("date" ∈ columns d4) as D4.
  { rewrite C4. apply setitem_columns_in. by right. }
  (* lines 35 to 37 *)
  destruct (assign_mapM_returns "year" "date" (dt_value year) d4) as [d5 H5]; [done| |].
  { eapply Forall_impl; [exact P4|]. intros r. apply dt_value_returns. }
  change (assign "year" "date" (dt_field year) d4)
    with (assign "year" "date" (mapM (dt_value year)) d4).
  rewrite H5. cbn [mbind result_bind].
  apply assign_mapM_Ok in H5 as (_ & C5 & R5).
  assert (Forall date_cell_ok (rows d5)) as P5.
  { eapply Forall2_Forall_transfer; [|exact R5|exact P4].
    intros r r' (v & _ & ->). by apply date_cell_ok_set. }
  assert (∀ c, c ∈ columns d4 → c ∈ columns d5) as I5.
  { intros c Hc. rewrite C5. apply setitem_columns_in. by left. }
  destruct (assign_mapM_returns "month" "date" (dt_value month) d5) as [d6 H6]; [by apply I5| |].
  { eapply Forall_impl; [exact P5|]. intros r. apply dt_value_returns. }
  change (assign "month" "date" (dt_field month) d5)
    with (assign "month" "date" (mapM (dt_value month)) d5).
  rewrite H6. cbn [mbind result_bind].
  apply assign_mapM_Ok in H6 as (_ & C6 & R6).
  assert (Forall date_cell_ok (rows d6)) as P6.
  { eapply Forall2_Forall_transfer; [|exact R6|exact P5].
    intros r r' (v & _ & ->). by apply date_cell_ok_set. }
  assert (∀ c, c ∈ columns d5 → c ∈ columns d6) as I6.
  { intros c Hc. rewrite C6. apply setitem_columns_in. by left. }
  destruct (assign_mapM_returns "day" "date" (dt_value day) d6) as [d7 H7];
    [by apply I6, I5| |].
  { eapply Forall_impl; [exact P6|]. intros r. apply dt_value_returns. }
  change (assign "day" "date" (dt_field day) d6)
    with (assign "day" "date" (mapM (dt_value day)) d6).
  rewrite H7. cbn [mbind result_bind].
  apply assign_mapM_Ok in H7 as (_ & C7 & R7).
  assert (Forall date_cell_ok (rows d7)) as P7.
  { eapply Forall2_Forall_transfer; [|exact R7|exact P6].
    intros r r' (v & _ & ->). by apply date_cell_ok_set. }
  assert (∀ c, c ∈ columns d6 → c ∈ columns d7) as I7.
  { intros c Hc. rewrite C7. apply setitem_columns_in. by left. }
  (* line 40 *)
  assert ("year" ∈ columns d7) as Y7.
  { apply I7, I6. rewrite C5. apply setitem_columns_in. by right. }
  destruct (assign_pure_returns "year" "year" numeric_value d7) as [d8 H8]; [done|].
  change (assign "year" "year" (λ s, Ok (to_numeric_coerce s)) d7)
    with (assign "year" "year" (λ s, Ok (numeric_value <$> s)) d7).
  rewrite H8. cbn [mbind result_bind].
  apply assign_pure_Ok in H8 as (_ & C8 & R8).
  assert (Forall date_cell_ok (rows d8)) as P8.
  { eapply Forall2_Forall_transfer; [|exact R8|exact P7].
    intros r r' ->. by apply date_cell_ok_set. }
  assert (∀ c, c ∈ columns d7 → c ∈ columns d8) as I8.
  { intros c Hc. rewrite C8. apply setitem_columns_in. by left. }
  (* lines 43 to 55 *)
  rewrite dropna_returns
    by (intros c Hc; apply list_elem_of_singleton in Hc as ->; by apply I8).
  cbn [mbind result_bind].
  rewrite select_returns.
  2:{ cbn [columns]. intros c Hc. unfold cols_to_keep in Hc.
      repeat (apply elem_of_cons in Hc as [->|Hc]); try (by apply elem_of_nil in Hc).
      - apply I8, I7, I6, I5. rewrite C4. apply setitem_columns_in. left.
        rewrite C3. apply setitem_columns_in. by left.
      - apply I8, I7, I6, I5. rewrite C4. apply setitem_columns_in. left.
        rewrite C3. apply setitem_columns_in. by left.
      - by apply I8, I7, I6, I5.
      - by apply I8.
      - apply I8, I7. rewrite C6. apply setitem_columns_in. by right.
      - apply I8. rewrite C7. apply setitem_columns_in. by right.
      - apply I8, I7, I6, I5. rewrite C4. apply setitem_columns_in. left.
        rewrite C3. apply setitem_columns_in. left. apply Hkeep2. solve_names.
      - apply I8, I7, I6, I5. rewrite C4. apply setitem_columns_in. left.
        rewrite C3. apply setitem_columns_in. left. apply Hkeep2. solve_names.
      - apply I8, I7, I6, I5. rewrite C4. apply setitem_columns_in. left.
        rewrite C3. apply setitem_columns_in. left. apply Hkeep2. solve_names.
      - apply I8, I7, I6, I5. rewrite C4. apply setitem_columns_in. left.
        rewrite C3. apply setitem_columns_in. left. apply Hkeep2. solve_names. }
  cbn [mbind result_bind].
  rewrite dropna_returns
    by (cbn [columns]; intros c Hc; apply list_elem_of_singleton in Hc as ->; solve_names).
  cbn [mbind result_bind columns rows].
  set (d11 := mkDataFrame cols_to_keep _).
  (* lines 58 to 61 *)
  destruct (assign_mapM_returns "system:time_start" "date" strftime_value d11) as [d12 H12].
  { unfold d11. cbn [columns]. solve_names. }
  { unfold d11. cbn [rows].
    apply Forall_forall. intros r Hr. apply strftime_value_returns.
    apply list_elem_of_filter in Hr as [_ Hr].
    apply list_elem_of_fmap in Hr as (r8 & -> & Hr8).
    apply list_elem_of_filter in Hr8 as [_ Hr8].
    pose proof (proj1 (Forall_forall _ _) P8 r8 Hr8) as Hok.
    unfold date_cell_ok in *. by rewrite row_get_keep_cells by solve_names. }
  change (assign "system:time_start" "date" dt_strftime_iso d11)
    with (assign "system:time_start" "date" (mapM strftime_value) d11).
  rewrite H12. cbn [mbind result_bind].
  apply assign_mapM_Ok in H12 as (_ & C12 & _).
  apply drop_returns. intros c Hc. apply list_elem_of_singleton in Hc as ->.
  rewrite C12. apply setitem_columns_in. left. unfold d11. cbn [columns]. solve_names.
Qed.

(** X12. The cleaning stage returns on every table that has the seven
    columns it reads and in which each row with both coordinates has a
    date that is null or a text the parse accepts: rows with missing
    values never make it raise. *)
Theorem preprocess_returns df :
  (∀ c, c ∈ required_columns → c ∈ columns df) →
  Forall (λ r, all_notna ["decimalLatitude"; "decimalLongitude"] r → date_parses r) (rows df) →
  is_Ok (preprocess df).
Proof. apply preprocess_is_Ok. Qed.

Lemma sample_required_columns c : c ∈ required_columns → c ∈ columns sample_table.
Proof.
  intros Hc. unfold required_columns in Hc.
  repeat (apply elem_of_cons in Hc as [->|Hc]); [solve_names..|by apply elem_of_nil in Hc].
Qed.

Lemma sample_date_parses :
  Forall (λ r, all_notna ["decimalLatitude"; "decimalLongitude"] r → date_parses r)
    (rows sample_table).
Proof.
  unfold sample_table. cbn [rows].
  repeat (apply Forall_cons_2;
          [intros _;
           first [ left; vm_compute; reflexivity
                 | right; eexists _, _; split; [vm_compute; reflexivity|];
                   vm_compute; reflexivity ]|]).
  apply Forall_nil_2.
Qed.

Lemma preprocess_returns_witness : is_Ok (preprocess sample_table).
Proof. exact (preprocess_returns sample_table sample_required_columns sample_date_parses). Defined.

(** ** When the run returns *)









(** ** A rejected date, on the sample *)

